(** * AgentBay SDK, TypeScript: the [Application] wrapper

    A shallow embedding of [typescript/src/application/application.ts]:
    the private helpers [callMcpTool] and [parseJSON] and the six public
    operations built on them, followed by the properties of the module's
    specification that can be stated about them.

    The embedding follows the source statement by statement.  JavaScript
    values are an inductive type, [try]/[catch] is an error monad threaded
    with the list of requests handed to the transport, and the primitives
    the file imports or takes from the language ([JSON.stringify],
    [JSON.parse], [extractRequestId], the [APIError] class, the client of
    the session) are the fields of two records the whole development is
    parametric in. *)

From Stdlib Require Import ZArith Ascii String DecimalString.
From stdpp Require Import base tactics option list strings.

Local Set Warnings "-register-all".
Local Open Scope Z_scope.
Local Open Scope string_scope.

(** ** JavaScript values *)

Module JS.

(** The values that travel through the wrapper: what [JSON.parse] builds,
    plus [undefined].  Numbers are carried as integers: the wrapper never
    computes with a number, it only tests one for truthiness, compares an
    array length with [0] and prints one inside a message, and how a
    number prints is left to the runtime.  Strings are
    byte strings; on ASCII text they agree with JavaScript's.  An object is
    the list of its own properties in insertion order. *)
Inductive value : Type :=
  | JUndefined
  | JNull
  | JBool (b : bool)
  | JNum (n : Z)
  | JStr (s : string)
  | JArr (items : list value)
  | JObj (fields : list (string * value)).

(** [ToBoolean]. *)
Definition truthy (v : value) : bool :=
  match v with
  | JUndefined | JNull => false
  | JBool b => b
  | JNum n => negb (n =? 0)%Z
  | JStr s => negb (String.eqb s "")
  | JArr _ | JObj _ => true
  end.

Definition nullish (v : value) : bool :=
  match v with
  | JUndefined | JNull => true
  | _ => false
  end.

(** [v === true]. *)
Definition strict_true (v : value) : bool :=
  match v with
  | JBool true => true
  | _ => false
  end.

(** [typeof v === "object"]: objects, arrays and [null]. *)
Definition typeof_object (v : value) : bool :=
  match v with
  | JNull | JArr _ | JObj _ => true
  | _ => false
  end.

(** [typeof v === "string"]. *)
Definition typeof_string (v : value) : bool :=
  match v with
  | JStr _ => true
  | _ => false
  end.

(** Own-property lookup in an object's property list. *)
Fixpoint lookup_field (k : string) (fields : list (string * value)) : option value :=
  match fields with
  | [] => None
  | (k', v) :: rest => if String.eqb k k' then Some v else lookup_field k rest
  end.

(** A property key that is a canonical array index: ["0"], ["1"], ["10"],
    but neither ["01"] nor ["+1"]. *)
Definition array_index (k : string) : option nat :=
  match NilZero.uint_of_string k with
  | Some d =>
      let i := Nat.of_uint d in
      if String.eqb (NilZero.string_of_uint (Nat.to_uint i)) k then Some i else None
  | None => None
  end.

(** [v[k]] and [v.k] on a value that is neither [null] nor [undefined].
    Arrays and strings answer [length] and their indices; none of the
    built-in prototypes has a property named like the keys the wrapper
    reads ([body], [data], [statusCode], [isError], [content], [text]). *)
Definition get_prop (v : value) (k : string) : value :=
  match v with
  | JObj fields => default JUndefined (lookup_field k fields)
  | JArr items =>
      if String.eqb k "length" then JNum (Z.of_nat (length items))
      else match array_index k with
           | Some i => nth i items JUndefined
           | None => JUndefined
           end
  | JStr s =>
      if String.eqb k "length" then JNum (Z.of_nat (String.length s))
      else match array_index k with
           | Some i =>
               match String.get i s with
               | Some c => JStr (String c EmptyString)
               | None => JUndefined
               end
           | None => JUndefined
           end
  | _ => JUndefined
  end.

(** [v?.k]. *)
Definition get_prop_opt (v : value) (k : string) : value :=
  if nullish v then JUndefined else get_prop v k.

(** What a [catch] clause receives.  Only the rendering [`${error}`] of a
    caught value is ever used by the wrapper, and every string is the
    rendering of some [Error] object (one with an empty name), so [Error]
    objects stand for all thrown values. *)
Record exn : Type := mkExn { exn_name : string; exn_message : string }.

(** [new Error(message)]. *)
Definition Error (message : string) : exn := mkExn "Error" message.

(** [Error.prototype.toString]. *)
Definition exn_toString (e : exn) : string :=
  if String.eqb (exn_name e) "" then exn_message e
  else if String.eqb (exn_message e) "" then exn_name e
  else exn_name e +:+ ": " +:+ exn_message e.

(** The line feed of [join("\n")]. *)
Definition LF : string := String "010"%char EmptyString.

(** [parts.join("\n")]. *)
Definition join_lines (parts : list string) : string := String.concat LF parts.

End JS.

Import JS.

(** ** The collaborators of the wrapper *)

(** [CallMcpToolRequest], with the four fields the wrapper fills in. *)
Record CallMcpToolRequest : Type := mkRequest {
  authorization : string;
  sessionId : string;
  name : string;
  args : string
}.

(** The one method of the transport client that the wrapper uses,
    [client.callMcpTool(request)], awaited: it rejects with an error or
    resolves to a response, which the wrapper reads as an untyped value. *)
Definition Client : Type := CallMcpToolRequest -> exn + value.

(** The session handed to the constructor of [Application]. *)
Record Session : Type := mkSession {
  getAPIKey : string;
  getClient : Client;
  getSessionId : string
}.

(** What the file takes from the language and from its imports.
    - [JSON_stringify] and [JSON_parse] return or throw.
    - [extractRequestId] comes from [../types/api-response]; it answers a
      string or [undefined].
    - [APIError_name] is the [name] that instances of the class [APIError]
      of [../exceptions], a subclass of [Error], report.
    - [read_of_nullish v k] is the [TypeError] of reading property [k] of
      [v] when [v] is [null] or [undefined]; its wording is the engine's.
    - [StringToNumber_positive s] is [s > 0] for a string [s], which goes
      through the floating-point reading of [s].
    - [Number_toString n] is the string [Number.prototype.toString] gives
      for the number [n]: digits for small integers, an exponent from
      [1e21] on.
    - [not_primitive] is the [TypeError] of converting to a primitive
      value an object that has no callable [toString] left. *)
Record Runtime : Type := mkRuntime {
  JSON_stringify : value -> exn + string;
  JSON_parse : string -> exn + value;
  extractRequestId : value -> option string;
  APIError_name : string;
  read_of_nullish : value -> string -> exn;
  StringToNumber_positive : string -> bool;
  Number_toString : Z -> string;
  not_primitive : exn
}.

(** [new APIError(message)]. *)
Definition APIError (rt : Runtime) (message : string) : exn :=
  mkExn (APIError_name rt) message.

(** [ToString], as [new Error(v)] applies it to its argument.  An array
    prints its elements separated by commas, [null] and [undefined]
    elements as nothing.  A plain object prints as ["[object Object]"]
    through the [toString] it inherits; when it has a property of its own
    named [toString], which holds data and cannot be called, the
    inherited [valueOf] does not help either and the conversion throws. *)
Fixpoint ToString (rt : Runtime) (v : value) : exn + string :=
  match v with
  | JUndefined => inr "undefined"
  | JNull => inr "null"
  | JBool true => inr "true"
  | JBool false => inr "false"
  | JNum n => inr (Number_toString rt n)
  | JStr s => inr s
  | JArr items =>
      match
        (fix elements (l : list value) : exn + list string :=
           match l with
           | [] => inr []
           | x :: rest =>
               match (if nullish x then inr "" else ToString rt x) with
               | inl e => inl e
               | inr s =>
                   match elements rest with
                   | inl e => inl e
                   | inr parts => inr (s :: parts)
                   end
               end
           end) items
      with
      | inl e => inl e
      | inr parts => inr (String.concat "," parts)
      end
  | JObj fields =>
      match lookup_field "toString" fields with
      | None => inr "[object Object]"
      | Some _ => inl (not_primitive rt)
      end
  end.

(** [v > 0]: [ToNumber] of [undefined] is [NaN], of [null] is [0]; an array
    is compared through its string form, and a plain object through
    ["[object Object]"], which is not a number.  The conversion of an
    array or an object to a string may throw. *)
Definition gt_zero (rt : Runtime) (v : value) : exn + bool :=
  match v with
  | JUndefined | JNull => inr false
  | JBool b => inr b
  | JNum n => inr (0 <? n)%Z
  | JStr s => inr (StringToNumber_positive rt s)
  | JArr _ =>
      match ToString rt v with
      | inl e => inl e
      | inr s => inr (StringToNumber_positive rt s)
      end
  | JObj _ =>
      match ToString rt v with
      | inl e => inl e
      | inr _ => inr false
      end
  end.

(** [v.k] where [v] may be [null] or [undefined]. *)
Definition read_prop (rt : Runtime) (v : value) (k : string) : exn + value :=
  if nullish v then inl (read_of_nullish rt v k) else inr (get_prop v k).

(** ** Control flow: exceptions and the requests sent *)

(** A computation runs from the list of the requests dispatched so far and
    either throws or returns; the list is kept in both cases.  [log] and
    [logError] only print and are left out. *)
Definition M (A : Type) : Type :=
  list CallMcpToolRequest -> (exn + A) * list CallMcpToolRequest.

Definition ret {A} (a : A) : M A := fun sent => (inr a, sent).

Definition throw {A} (e : exn) : M A := fun sent => (inl e, sent).

Definition bind {A B} (m : M A) (k : A -> M B) : M B :=
  fun sent =>
    match m sent with
    | (inl e, sent') => (inl e, sent')
    | (inr a, sent') => k a sent'
    end.

(** [try { m } catch (error) { handler }]. *)
Definition try_catch {A} (m : M A) (handler : exn -> M A) : M A :=
  fun sent =>
    match m sent with
    | (inl e, sent') => handler e sent'
    | (inr a, sent') => (inr a, sent')
    end.

(** A primitive that returns or throws and sends nothing. *)
Definition lift {A} (r : exn + A) : M A := fun sent => (r, sent).

(** [await client.callMcpTool(request)]. *)
Definition await_callMcpTool (client : Client) (request : CallMcpToolRequest) : M value :=
  fun sent => (client request, (sent ++ [request])%list).

Declare Scope M_scope.
Delimit Scope M_scope with M.
Notation "'let*' x ':=' m 'in' k" := (bind m (fun x => k))
  (at level 10, x name, m at level 100, k at level 200) : M_scope.

(** ** Result records *)

(** The internal [CallMcpToolResult]. *)
Module CallMcpToolResult.
Record t : Type := mk {
  data : value;
  content : option value;
  textContent : option string;
  isError : bool;
  errorMsg : option value;
  statusCode : value;
  requestId : option string
}.

Definition set_isError (b : bool) (r : t) : t :=
  mk (data r) (content r) (textContent r) b (errorMsg r) (statusCode r) (requestId r).

Definition set_content (c : value) (r : t) : t :=
  mk (data r) (Some c) (textContent r) (isError r) (errorMsg r) (statusCode r) (requestId r).

Definition set_textContent (s : string) (r : t) : t :=
  mk (data r) (content r) (Some s) (isError r) (errorMsg r) (statusCode r) (requestId r).

Definition set_errorMsg (m : value) (r : t) : t :=
  mk (data r) (content r) (textContent r) (isError r) (Some m) (statusCode r) (requestId r).
End CallMcpToolResult.

(** The records the public operations return.  [InstalledAppListResult]
    and [ProcessListResult] carry [data]; [AppOperationResult] has no such
    property, which is [data = None] here.  [data] is whatever [JSON.parse]
    built: the type parameter of [parseJSON] checks nothing at run time. *)
Module Result.
Record t : Type := mk {
  requestId : string;
  success : bool;
  data : option value;
  errorMessage : option string
}.
End Result.

Definition InstalledAppListResult : Type := Result.t.
Definition ProcessListResult : Type := Result.t.
Definition AppOperationResult : Type := Result.t.

(** [s || ""] for an optional string [s]. *)
Definition or_empty (s : option string) : string := default "" s.

(** ** The class [Application] *)

Section Application.

Context (rt : Runtime) (session : Session).

Local Open Scope M_scope.

Import CallMcpToolResult.

(** The test of the loop body of [callMcpTool]:
    [item && typeof item === "object" && item.text &&
     typeof item.text === "string"], and the [item.text] it lets through. *)
Definition text_part (item : value) : option string :=
  if truthy item && typeof_object item
     && truthy (get_prop item "text") && typeof_string (get_prop item "text")
  then match get_prop item "text" with
       | JStr s => Some s
       | _ => None
       end
  else None.

(** [for (const item of result.content) { if (...) textParts.push(item.text) }],
    from [textParts = []]. *)
Definition collect_text (items : list value) : list string :=
  fold_left
    (fun textParts item =>
       match text_part item with
       | Some s => (textParts ++ [s])%list
       | None => textParts
       end)
    items [].

(** [callMcpTool(toolName, args, defaultErrorMsg)]. *)
Definition callMcpTool (toolName : string) (args : value) (defaultErrorMsg : string)
  : M CallMcpToolResult.t :=
  try_catch
    (let* argsJSON := lift (JSON_stringify rt args) in
     let request :=
       mkRequest ("Bearer " +:+ getAPIKey session) (getSessionId session)
                 toolName argsJSON in
     let* response := await_callMcpTool (getClient session) request in
     (* if (!response.body?.data) *)
     let* body := lift (read_prop rt response "body") in
     let data := get_prop_opt body "data" in
     if negb (truthy data) then throw (Error "Invalid response data format")
     else
       let result :=
         CallMcpToolResult.mk data None None false None
           (if truthy (get_prop response "statusCode")
            then get_prop response "statusCode" else JNum 0)
           (extractRequestId rt response) in
       if strict_true (get_prop data "isError") then
         let result := set_isError true result in
         let contentArray := get_prop data "content" in
         (* if (contentArray && contentArray.length > 0) *)
         let* has_items :=
           if truthy contentArray
           then lift (gt_zero rt (get_prop contentArray "length"))
           else ret false in
         if has_items then
           let result := set_content contentArray result in
           let text := get_prop_opt (get_prop contentArray "0") "text" in
           if truthy text then
             let result := set_errorMsg text result in
             (* throw new Error(contentArray[0].text) *)
             let* message := lift (ToString rt text) in
             throw (Error message)
           else throw (Error defaultErrorMsg)
         else throw (Error defaultErrorMsg)
       else
         (* if (Array.isArray(data.content)) *)
         match get_prop data "content" with
         | JArr items =>
             let result := set_content (JArr items) result in
             if (0 <? length items)%nat
             then ret (set_textContent (join_lines (collect_text items)) result)
             else ret result
         | _ => ret result
         end)
    (fun error =>
       throw (APIError rt ("Failed to call " +:+ toolName +:+ ": " +:+ exn_toString error))).

(** [parseJSON(jsonString)]. *)
Definition parseJSON (jsonString : string) : M value :=
  try_catch
    (lift (JSON_parse rt jsonString))
    (fun error => throw (Error ("Failed to parse JSON: " +:+ exn_toString error))).

(** [getInstalledApps(startMenu = true, desktop = true, ignoreSystemApps = true)];
    [None] is an argument left out. *)
Definition getInstalledApps (startMenu desktop ignoreSystemApps : option bool)
  : M InstalledAppListResult :=
  let startMenu := default true startMenu in
  let desktop := default true desktop in
  let ignoreSystemApps := default true ignoreSystemApps in
  try_catch
    (let args :=
       JObj [("start_menu", JBool startMenu);
             ("desktop", JBool desktop);
             ("ignore_system_apps", JBool ignoreSystemApps)] in
     let* result :=
       callMcpTool "get_installed_apps" args "Failed to get installed apps" in
     let* apps :=
       match textContent result with
       | Some text => if truthy (JStr text) then parseJSON text else ret (JArr [])
       | None => ret (JArr [])
       end in
     ret (Result.mk (or_empty (requestId result)) true (Some apps) None))
    (fun error =>
       ret (Result.mk "" false (Some (JArr []))
              (Some ("Failed to get installed apps: " +:+ exn_toString error)))).

(** The [args] object of [startApp]: [start_cmd] first, then the two
    optional properties when their value is truthy. *)
Definition startApp_args (startCmd workDirectory activity : string) : value :=
  let args := [("start_cmd", JStr startCmd)] in
  let args :=
    if truthy (JStr workDirectory)
    then (args ++ [("work_directory", JStr workDirectory)])%list else args in
  let args :=
    if truthy (JStr activity)
    then (args ++ [("activity", JStr activity)])%list else args in
  JObj args.

(** [startApp(startCmd, workDirectory = "", activity = "")]. *)
Definition startApp (startCmd : string) (workDirectory activity : option string)
  : M ProcessListResult :=
  let workDirectory := default "" workDirectory in
  let activity := default "" activity in
  try_catch
    (let args := startApp_args startCmd workDirectory activity in
     let* result := callMcpTool "start_app" args "Failed to start app" in
     let* processes :=
       match textContent result with
       | Some text => if truthy (JStr text) then parseJSON text else ret (JArr [])
       | None => ret (JArr [])
       end in
     ret (Result.mk (or_empty (requestId result)) true (Some processes) None))
    (fun error =>
       ret (Result.mk "" false (Some (JArr []))
              (Some ("Failed to start app: " +:+ exn_toString error)))).

(** [stopAppByPName(pname)]. *)
Definition stopAppByPName (pname : string) : M AppOperationResult :=
  try_catch
    (let args := JObj [("pname", JStr pname)] in
     let* result :=
       callMcpTool "stop_app_by_pname" args "Failed to stop app by pname" in
     ret (Result.mk (or_empty (requestId result)) true None None))
    (fun error =>
       ret (Result.mk "" false None
              (Some ("Failed to stop app by pname: " +:+ exn_toString error)))).

(** [stopAppByPID(pid)]. *)
Definition stopAppByPID (pid : Z) : M AppOperationResult :=
  try_catch
    (let args := JObj [("pid", JNum pid)] in
     let* result :=
       callMcpTool "stop_app_by_pid" args "Failed to stop app by pid" in
     ret (Result.mk (or_empty (requestId result)) true None None))
    (fun error =>
       ret (Result.mk "" false None
              (Some ("Failed to stop app by pid: " +:+ exn_toString error)))).

(** [stopAppByCmd(stopCmd)]. *)
Definition stopAppByCmd (stopCmd : string) : M AppOperationResult :=
  try_catch
    (let args := JObj [("stop_cmd", JStr stopCmd)] in
     let* result :=
       callMcpTool "stop_app_by_cmd" args "Failed to stop app by command" in
     ret (Result.mk (or_empty (requestId result)) true None None))
    (fun error =>
       ret (Result.mk "" false None
              (Some ("Failed to stop app by command: " +:+ exn_toString error)))).

(** [listVisibleApps()]. *)
Definition listVisibleApps : M ProcessListResult :=
  try_catch
    (let args := JObj [] in
     let* result :=
       callMcpTool "list_visible_apps" args "Failed to list visible apps" in
     let* processes :=
       match textContent result with
       | Some text => if truthy (JStr text) then parseJSON text else ret (JArr [])
       | None => ret (JArr [])
       end in
     ret (Result.mk (or_empty (requestId result)) true (Some processes) None))
    (fun error =>
       ret (Result.mk "" false (Some (JArr []))
              (Some ("Failed to list visible apps: " +:+ exn_toString error)))).

End Application.

(** ** The six operations as one family *)

(** A call of one of the six public methods, with its arguments. *)
Inductive operation : Type :=
  | GetInstalledApps (startMenu desktop ignoreSystemApps : option bool)
  | StartApp (startCmd : string) (workDirectory activity : option string)
  | StopAppByPName (pname : string)
  | StopAppByPID (pid : Z)
  | StopAppByCmd (stopCmd : string)
  | ListVisibleApps.

Definition run (rt : Runtime) (session : Session) (o : operation) : M Result.t :=
  match o with
  | GetInstalledApps startMenu desktop ignoreSystemApps =>
      getInstalledApps rt session startMenu desktop ignoreSystemApps
  | StartApp startCmd workDirectory activity =>
      startApp rt session startCmd workDirectory activity
  | StopAppByPName pname => stopAppByPName rt session pname
  | StopAppByPID pid => stopAppByPID rt session pid
  | StopAppByCmd stopCmd => stopAppByCmd rt session stopCmd
  | ListVisibleApps => listVisibleApps rt session
  end.

(** The tool an operation names in its call of [callMcpTool]. *)
Definition toolName_of (o : operation) : string :=
  match o with
  | GetInstalledApps _ _ _ => "get_installed_apps"
  | StartApp _ _ _ => "start_app"
  | StopAppByPName _ => "stop_app_by_pname"
  | StopAppByPID _ => "stop_app_by_pid"
  | StopAppByCmd _ => "stop_app_by_cmd"
  | ListVisibleApps => "list_visible_apps"
  end.

(** The default error message an operation passes to [callMcpTool]. *)
Definition defaultErrorMsg_of (o : operation) : string :=
  match o with
  | GetInstalledApps _ _ _ => "Failed to get installed apps"
  | StartApp _ _ _ => "Failed to start app"
  | StopAppByPName _ => "Failed to stop app by pname"
  | StopAppByPID _ => "Failed to stop app by pid"
  | StopAppByCmd _ => "Failed to stop app by command"
  | ListVisibleApps => "Failed to list visible apps"
  end.

(** The argument object an operation passes to [callMcpTool]. *)
Definition args_of (o : operation) : value :=
  match o with
  | GetInstalledApps startMenu desktop ignoreSystemApps =>
      JObj [("start_menu", JBool (default true startMenu));
            ("desktop", JBool (default true desktop));
            ("ignore_system_apps", JBool (default true ignoreSystemApps))]
  | StartApp startCmd workDirectory activity =>
      startApp_args startCmd (default "" workDirectory) (default "" activity)
  | StopAppByPName pname => JObj [("pname", JStr pname)]
  | StopAppByPID pid => JObj [("pid", JNum pid)]
  | StopAppByCmd stopCmd => JObj [("stop_cmd", JStr stopCmd)]
  | ListVisibleApps => JObj []
  end.

(** The operations whose result carries a list decoded from the text of
    the response; the three others report a status only. *)
Definition returns_list (o : operation) : bool :=
  match o with
  | GetInstalledApps _ _ _ | StartApp _ _ _ | ListVisibleApps => true
  | StopAppByPName _ | StopAppByPID _ | StopAppByCmd _ => false
  end.

(** The request [callMcpTool] builds for a tool and serialised arguments. *)
Definition request_for (session : Session) (toolName argsJSON : string)
  : CallMcpToolRequest :=
  mkRequest ("Bearer " +:+ getAPIKey session) (getSessionId session) toolName argsJSON.

(** [response.body?.data] of a response that is neither [null] nor
    [undefined]. *)
Definition payload (response : value) : value :=
  get_prop_opt (get_prop response "body") "data".

(** [needle] occurs in [text]. *)
Definition contains (needle text : string) : Prop :=
  exists before after, text = before +:+ needle +:+ after.

(** ** A runtime and sessions to evaluate the definitions on *)

Module Sample.

Definition quote : string := String "034"%char EmptyString.

(** Stand-ins for the primitives, good for the values the calls below
    meet and no further.  [print_number] writes an integer in digits, as
    JavaScript does below [1e21].  [stringify] serialises the flat
    argument objects of the six operations; strings are written between
    quotes as they are, which is what [JSON.stringify] does when they hold
    no quote, backslash or control character. *)
Definition print_number (n : Z) : string :=
  NilZero.string_of_int (Z.to_int n).

Definition stringify_atom (v : value) : string :=
  match v with
  | JStr s => quote +:+ s +:+ quote
  | JBool true => "true"
  | JBool false => "false"
  | JNum n => print_number n
  | _ => "null"
  end.

Definition stringify (v : value) : exn + string :=
  match v with
  | JObj fields =>
      inr ("{" +:+ String.concat ","
                     (List.map (fun kv => quote +:+ fst kv +:+ quote +:+ ":"
                                          +:+ stringify_atom (snd kv)) fields)
           +:+ "}")
  | _ => inr (stringify_atom v)
  end.

(** The text of a list of two processes and its decoding. *)
Definition processes_text : string :=
  "[{" +:+ quote +:+ "pname" +:+ quote +:+ ":" +:+ quote +:+ "sh" +:+ quote +:+ ","
       +:+ quote +:+ "pid" +:+ quote +:+ ":1},{"
       +:+ quote +:+ "pname" +:+ quote +:+ ":" +:+ quote +:+ "vi" +:+ quote +:+ ","
       +:+ quote +:+ "pid" +:+ quote +:+ ":2}]".

Definition processes : list value :=
  [JObj [("pname", JStr "sh"); ("pid", JNum 1)];
   JObj [("pname", JStr "vi"); ("pid", JNum 2)]].

(** Decodes the two texts used below and rejects every other one; the
    calls below hand it these two texts and texts that are not JSON. *)
Definition parse (text : string) : exn + value :=
  if String.eqb text processes_text then inr (JArr processes)
  else if String.eqb text "[]" then inr (JArr [])
  else inl (mkExn "SyntaxError" "Unexpected token").

(** Reads the request id off the body of the response. *)
Definition requestIdOf (response : value) : option string :=
  match get_prop_opt (get_prop_opt response "body") "requestId" with
  | JStr s => Some s
  | _ => None
  end.

(** No call below compares a string with a number. *)
Definition rt : Runtime :=
  mkRuntime stringify parse requestIdOf "APIError"
    (fun v k =>
       mkExn "TypeError"
         ("Cannot read properties of "
          +:+ (match v with JNull => "null" | _ => "undefined" end)
          +:+ " (reading '" +:+ k +:+ "')"))
    (fun _ => false)
    print_number
    (mkExn "TypeError" "Cannot convert object to primitive value").

(** A session whose client answers every request the same way. *)
Definition session_answering (answer : exn + value) : Session :=
  mkSession "key" (fun _ => answer) "s-1".

(** A response with request id ["R1"] around a payload. *)
Definition response_with (data : value) : value :=
  JObj [("statusCode", JNum 200);
        ("body", JObj [("requestId", JStr "R1"); ("data", data)])].

Definition text_item (s : string) : value := JObj [("text", JStr s)].

(** Content whose second item has the empty string as its text. *)
Definition texts_with_empty : list value :=
  [text_item "a"; text_item ""; text_item "b"].

(** A payload marked as an error whose first content item has the empty
    string as its text. *)
Definition error_with_empty_text : value :=
  JObj [("isError", JBool true); ("content", JArr [text_item ""])].

(** A payload marked as an error whose first content item says ["boom"]. *)
Definition error_boom : value :=
  JObj [("isError", JBool true); ("content", JArr [text_item "boom"])].

(** A payload whose text is the list of two processes. *)
Definition two_processes : value :=
  JObj [("isError", JBool false); ("content", JArr [text_item processes_text])].

(** A payload whose text is not JSON. *)
Definition not_json : value :=
  JObj [("isError", JBool false); ("content", JArr [text_item "stopped"])].

End Sample.

(** ** Vocabulary of the properties *)

(** The shape the six methods share: one call of [callMcpTool] inside a
    [try], the decoding of the text for the operations that return a list,
    and a [catch] that builds the failure record.  The message of the
    [catch] starts with the words of the default error message. *)
Definition operation_template (rt : Runtime) (session : Session)
    (toolName : string) (args : value) (defaultErrorMsg : string) (with_list : bool)
  : M Result.t :=
  try_catch
    (bind (callMcpTool rt session toolName args defaultErrorMsg) (fun result =>
       if with_list then
         bind
           (match CallMcpToolResult.textContent result with
            | Some text =>
                if truthy (JStr text) then parseJSON rt text else ret (JArr [])
            | None => ret (JArr [])
            end)
           (fun list =>
              ret (Result.mk (or_empty (CallMcpToolResult.requestId result))
                     true (Some list) None))
       else
         ret (Result.mk (or_empty (CallMcpToolResult.requestId result))
                true None None)))
    (fun error =>
       ret (Result.mk "" false (if with_list then Some (JArr []) else None)
              (Some (defaultErrorMsg +:+ ": " +:+ exn_toString error)))).

(** The failure record of the public surface: [success] false, an empty
    [requestId] and an [errorMessage] that is not empty. *)
Definition failure_record (res : Result.t) : Prop :=
  Result.success res = false /\
  Result.requestId res = "" /\
  exists message, Result.errorMessage res = Some message /\ message <> "".

(** The ways a call of [callMcpTool] goes wrong. *)
Inductive call_failure (rt : Runtime) (session : Session)
    (toolName : string) (args : value) : Prop :=
  | serialization_failure e :
      JSON_stringify rt args = inl e ->
      call_failure rt session toolName args
  | transport_failure argsJSON e :
      JSON_stringify rt args = inr argsJSON ->
      getClient session (request_for session toolName argsJSON) = inl e ->
      call_failure rt session toolName args
  | malformed_response argsJSON response :
      JSON_stringify rt args = inr argsJSON ->
      getClient session (request_for session toolName argsJSON) = inr response ->
      nullish response = true \/ truthy (payload response) = false ->
      call_failure rt session toolName args
  | tool_error argsJSON response :
      JSON_stringify rt args = inr argsJSON ->
      getClient session (request_for session toolName argsJSON) = inr response ->
      strict_true (get_prop (payload response) "isError") = true ->
      call_failure rt session toolName args.

(** The ways a public operation goes wrong: its call of [callMcpTool]
    fails, or the text it is handed back is not JSON. *)
Inductive operation_failure (rt : Runtime) (session : Session)
    (o : operation) (sent : list CallMcpToolRequest) : Prop :=
  | failed_call :
      call_failure rt session (toolName_of o) (args_of o) ->
      operation_failure rt session o sent
  | failed_parse result sent' text e :
      returns_list o = true ->
      callMcpTool rt session (toolName_of o) (args_of o) (defaultErrorMsg_of o) sent
        = (inr result, sent') ->
      CallMcpToolResult.textContent result = Some text ->
      text <> "" ->
      JSON_parse rt text = inl e ->
      operation_failure rt session o sent.

(** The text of a content item that is an object with a non-empty string
    under [text]. *)
Definition nonempty_text (item : value) : option string :=
  match item with
  | JObj fields =>
      match lookup_field "text" fields with
      | Some (JStr s) => if decide (s = "") then None else Some s
      | _ => None
      end
  | _ => None
  end.

(** The text of a content item that has a string under [text], empty or
    not. *)
Definition string_text (item : value) : option string :=
  match item with
  | JObj fields =>
      match lookup_field "text" fields with
      | Some (JStr s) => Some s
      | _ => None
      end
  | _ => None
  end.

(** [textContent] when every item with a string [text] field takes part. *)
Definition textContent_of_string_texts (items : list value) : string :=
  join_lines (omap string_text items).

(** The [text] field of the first content item of a payload, when the
    payload has content, a first item, and the item has the field. *)
Definition first_text_field (data : value) : option value :=
  match get_prop data "content" with
  | JArr (JObj fields :: _) => lookup_field "text" fields
  | _ => None
  end.

(** [new Error(text)], or what the conversion of [text] to a string
    throws. *)
Definition Error_of (rt : Runtime) (text : value) : exn :=
  match ToString rt text with
  | inr message => Error message
  | inl e => e
  end.

(** The cause of the error when a present [text] field is always used. *)
Definition cause_of_present_text (rt : Runtime) (data : value) (defaultErrorMsg : string)
  : exn :=
  match first_text_field data with
  | Some text => Error_of rt text
  | None => Error defaultErrorMsg
  end.

(** The cause [callMcpTool] raises with for a payload marked as an error
    whose content is not a plain object: an error made of the [text] of
    the first content item when that text is truthy, of the default error
    message otherwise. *)
Definition cause_of_truthy_text (rt : Runtime) (data : value) (defaultErrorMsg : string)
  : exn :=
  match get_prop data "content" with
  | JArr (item :: _) =>
      if truthy (get_prop_opt item "text") then Error_of rt (get_prop_opt item "text")
      else Error defaultErrorMsg
  | _ => Error defaultErrorMsg
  end.

Definition plain_object (v : value) : bool :=
  match v with
  | JObj _ => true
  | _ => false
  end.

(** The error [callMcpTool] raises for a cause thrown inside its [try]. *)
Definition wrapped (rt : Runtime) (toolName : string) (cause : exn) : exn :=
  APIError rt ("Failed to call " +:+ toolName +:+ ": " +:+ exn_toString cause).

(** ** Strings *)

Lemma append_assoc (a b c : string) : (a +:+ b) +:+ c = a +:+ (b +:+ c).
Proof.
  induction a as [|x a IH]; [done|].
  change (String x ((a +:+ b) +:+ c) = String x (a +:+ (b +:+ c))).
  by rewrite IH.
Qed.

Lemma append_empty_r (a : string) : a +:+ "" = a.
Proof.
  induction a as [|x a IH]; [done|].
  change (String x (a +:+ "") = String x a). by rewrite IH.
Qed.

Lemma append_nonempty_r (a b : string) : b <> "" -> a +:+ b <> "".
Proof. intros Hb. destruct a; cbn; [done|discriminate]. Qed.

Lemma append_nonempty_l (a b : string) : a <> "" -> a +:+ b <> "".
Proof. intros Ha. destruct a; [done|discriminate]. Qed.

Lemma contains_append_l (needle a b : string) :
  contains needle b -> contains needle (a +:+ b).
Proof.
  intros (before & after & ->). exists (a +:+ before), after.
  by rewrite append_assoc.
Qed.

(** The rendering of an error shows its message. *)
Lemma exn_toString_contains (needle : string) (e : exn) :
  exn_message e <> "" ->
  contains needle (exn_message e) -> contains needle (exn_toString e).
Proof.
  intros Hne Hc. unfold exn_toString.
  destruct (String.eqb_spec (exn_name e) ""); [done|].
  destruct (String.eqb_spec (exn_message e) ""); [done|].
  by do 2 apply contains_append_l.
Qed.

Lemma truthy_JStr (s : string) : truthy (JStr s) = true <-> s <> "".
Proof.
  cbn. destruct (String.eqb_spec s ""); cbn; split; congruence.
Qed.

(** ** The loop that collects the text parts *)

Lemma text_part_nonempty_text (item : value) : text_part item = nonempty_text item.
Proof.
  unfold text_part, nonempty_text.
  destruct item as [| |b|n|s|items|fields]; try done.
  - by destruct b.
  - cbn. by destruct (n =? 0)%Z.
  - cbn [truthy typeof_object andb]. by destruct (negb _).
  - cbn [truthy typeof_object andb get_prop].
    destruct (lookup_field "text" fields) as [[| |b|n|s|l|l]|]; cbn; try done.
    + by destruct b.
    + by destruct (n =? 0)%Z.
    + destruct (String.eqb_spec s ""); case_decide; done.
Qed.

Lemma collect_text_omap (items : list value) :
  collect_text items = omap text_part items.
Proof.
  unfold collect_text.
  enough (forall acc,
    fold_left (fun textParts item =>
                 match text_part item with
                 | Some s => (textParts ++ [s])%list
                 | None => textParts
                 end) items acc
    = (acc ++ omap text_part items)%list) as H by apply (H []).
  induction items as [|item items IH]; intros acc; cbn.
  - by rewrite app_nil_r.
  - rewrite IH. destruct (text_part item); [|done].
    by rewrite <- app_assoc.
Qed.

Lemma collect_text_nonempty (items : list value) :
  collect_text items = omap nonempty_text items.
Proof.
  rewrite collect_text_omap.
  induction items as [|item items IH]; [done|].
  cbn. by rewrite IH, text_part_nonempty_text.
Qed.

(** ** The helper [callMcpTool] *)

Section Properties.

Context (rt : Runtime) (session : Session).

Implicit Types (o : operation) (sent : list CallMcpToolRequest).
Implicit Types (toolName argsJSON msg : string) (args response : value).

Import CallMcpToolResult.

Ltac unfold_M :=
  unfold try_catch, bind, lift, await_callMcpTool, throw, ret, read_prop,
    request_for, payload in *.

(** A value with a property that is [true] is a plain object. *)
Lemma strict_true_get_prop (v : value) (k : string) :
  String.eqb k "length" = false -> array_index k = None ->
  strict_true (get_prop v k) = true -> plain_object v = true.
Proof.
  intros Hk Hi. destruct v; cbn; try done; rewrite Hk, Hi; done.
Qed.

(** A payload marked as an error is truthy, and it was read off a response
    that is neither [null] nor [undefined]. *)
Lemma marked_payload response :
  strict_true (get_prop (payload response) "isError") = true ->
  nullish response = false /\ truthy (payload response) = true.
Proof.
  intros H. apply strict_true_get_prop in H; [|done..].
  split; [|by destruct (payload response)].
  unfold payload, get_prop_opt in H.
  destruct response; try done; cbn in H; by destruct b.
Qed.

Lemma callMcpTool_sent toolName args msg sent :
  snd (callMcpTool rt session toolName args msg sent)
  = match JSON_stringify rt args with
    | inr argsJSON => (sent ++ [request_for session toolName argsJSON])%list
    | inl _ => sent
    end.
Proof.
  unfold callMcpTool. unfold_M. repeat case_match; simplify_eq/=; done.
Qed.

Lemma callMcpTool_serialization_failure toolName args msg sent e :
  JSON_stringify rt args = inl e ->
  callMcpTool rt session toolName args msg sent = (inl (wrapped rt toolName e), sent).
Proof. intros H. unfold callMcpTool. unfold_M. by rewrite H. Qed.

Lemma callMcpTool_transport_failure toolName args msg sent argsJSON e :
  JSON_stringify rt args = inr argsJSON ->
  getClient session (request_for session toolName argsJSON) = inl e ->
  callMcpTool rt session toolName args msg sent
  = (inl (wrapped rt toolName e), (sent ++ [request_for session toolName argsJSON])%list).
Proof. intros H1 H2. unfold callMcpTool. unfold_M. by rewrite H1, H2. Qed.

Lemma callMcpTool_nullish_response toolName args msg sent argsJSON response :
  JSON_stringify rt args = inr argsJSON ->
  getClient session (request_for session toolName argsJSON) = inr response ->
  nullish response = true ->
  callMcpTool rt session toolName args msg sent
  = (inl (wrapped rt toolName (read_of_nullish rt response "body")),
     (sent ++ [request_for session toolName argsJSON])%list).
Proof. intros H1 H2 H3. unfold callMcpTool. unfold_M. by rewrite H1, H2, H3. Qed.

Lemma callMcpTool_no_data toolName args msg sent argsJSON response :
  JSON_stringify rt args = inr argsJSON ->
  getClient session (request_for session toolName argsJSON) = inr response ->
  nullish response = false ->
  truthy (payload response) = false ->
  callMcpTool rt session toolName args msg sent
  = (inl (wrapped rt toolName (Error "Invalid response data format")),
     (sent ++ [request_for session toolName argsJSON])%list).
Proof.
  intros H1 H2 H3 H4. unfold callMcpTool. unfold_M. by rewrite H1, H2, H3, H4.
Qed.

Lemma callMcpTool_tool_error toolName args msg sent argsJSON response :
  JSON_stringify rt args = inr argsJSON ->
  getClient session (request_for session toolName argsJSON) = inr response ->
  strict_true (get_prop (payload response) "isError") = true ->
  exists cause,
    callMcpTool rt session toolName args msg sent
    = (inl (wrapped rt toolName cause),
       (sent ++ [request_for session toolName argsJSON])%list)
    /\ (plain_object (get_prop (payload response) "content") = false ->
        cause = cause_of_truthy_text rt (payload response) msg).
Proof.
  intros H1 H2 H3. destruct (marked_payload _ H3) as (Hn & Ht).
  unfold callMcpTool. unfold_M. rewrite H1, H2, Hn, Ht, H3. cbn [negb].
  unfold cause_of_truthy_text, Error_of.
  destruct (get_prop (get_prop_opt (get_prop response "body") "data") "content")
    as [| |b|n|s|items|fields] eqn:Hc; cbn [truthy].
  - by exists (Error msg).
  - by exists (Error msg).
  - exists (Error msg). by destruct b.
  - exists (Error msg). by destruct (negb (n =? 0)%Z).
  - exists (Error msg). split; [|done].
    destruct (negb (String.eqb s "")); [|done].
    cbn [get_prop String.eqb Ascii.eqb Bool.eqb gt_zero].
    destruct (0 <? Z.of_nat (String.length s))%Z; [|done].
    change (array_index "0") with (Some 0%nat). cbv iota.
    by destruct (String.get 0 s).
  - destruct items as [|item items]; [by exists (Error msg)|].
    change (get_prop (JArr (item :: items)) "0") with item.
    assert (gt_zero rt (get_prop (JArr (item :: items)) "length") = inr true) as ->.
    { reflexivity. }
    destruct (truthy (get_prop_opt item "text")); [|by exists (Error msg)].
    destruct (ToString rt (get_prop_opt item "text")); eexists; by split.
  - destruct (gt_zero rt _) as [e|[]];
      [by exists e| |by exists (Error msg)].
    destruct (truthy (get_prop_opt (get_prop (JObj fields) "0") "text"));
      [|by exists (Error msg)].
    destruct (ToString rt _); eexists; by split.
Qed.

Lemma callMcpTool_success toolName args msg sent argsJSON response :
  JSON_stringify rt args = inr argsJSON ->
  getClient session (request_for session toolName argsJSON) = inr response ->
  nullish response = false ->
  truthy (payload response) = true ->
  strict_true (get_prop (payload response) "isError") = false ->
  exists r,
    callMcpTool rt session toolName args msg sent
    = (inr r, (sent ++ [request_for session toolName argsJSON])%list)
    /\ data r = payload response
    /\ isError r = false
    /\ requestId r = extractRequestId rt response
    /\ forall items, get_prop (payload response) "content" = JArr items ->
         content r = Some (JArr items) /\
         textContent r =
           match items with
           | [] => None
           | _ :: _ => Some (join_lines (omap nonempty_text items))
           end.
Proof.
  intros H1 H2 H3 H4 H5. unfold callMcpTool. unfold_M.
  rewrite H1, H2, H3, H4, H5. cbn [negb].
  destruct (get_prop (get_prop_opt (get_prop response "body") "data") "content")
    as [| |b|n|s|items|fields] eqn:Hc;
    try (eexists; split; [reflexivity|]; by repeat split).
  destruct items as [|item items]; cbn [length Nat.ltb Nat.leb];
    (eexists; split; [reflexivity|]); (do 3 (split; [done|]));
    intros ? [= <-]; (split; [done|]); [done|].
  cbn [textContent set_textContent]. by rewrite collect_text_nonempty.
Qed.

(** ** The six operations *)

Lemma run_template o :
  run rt session o
  = operation_template rt session (toolName_of o) (args_of o)
      (defaultErrorMsg_of o) (returns_list o).
Proof. by destruct o. Qed.

Lemma template_call_throws toolName args msg with_list sent e sent' :
  callMcpTool rt session toolName args msg sent = (inl e, sent') ->
  operation_template rt session toolName args msg with_list sent
  = (inr (Result.mk "" false (if with_list then Some (JArr []) else None)
            (Some (msg +:+ ": " +:+ exn_toString e))), sent').
Proof. intros H. unfold operation_template. unfold_M. by rewrite H. Qed.

Lemma template_status toolName args msg sent r sent' :
  callMcpTool rt session toolName args msg sent = (inr r, sent') ->
  operation_template rt session toolName args msg false sent
  = (inr (Result.mk (or_empty (requestId r)) true None None), sent').
Proof. intros H. unfold operation_template. unfold_M. by rewrite H. Qed.

Lemma template_no_text toolName args msg sent r sent' :
  callMcpTool rt session toolName args msg sent = (inr r, sent') ->
  textContent r = None \/ textContent r = Some "" ->
  operation_template rt session toolName args msg true sent
  = (inr (Result.mk (or_empty (requestId r)) true (Some (JArr [])) None), sent').
Proof.
  intros H Ht. unfold operation_template. unfold_M. rewrite H.
  by destruct Ht as [-> | ->].
Qed.

Lemma template_parsed toolName args msg sent r sent' text v :
  callMcpTool rt session toolName args msg sent = (inr r, sent') ->
  textContent r = Some text -> text <> "" ->
  JSON_parse rt text = inr v ->
  operation_template rt session toolName args msg true sent
  = (inr (Result.mk (or_empty (requestId r)) true (Some v) None), sent').
Proof.
  intros H Ht Hne Hp. unfold operation_template, parseJSON. unfold_M.
  rewrite H, Ht. apply truthy_JStr in Hne. by rewrite Hne, Hp.
Qed.

Lemma template_parse_throws toolName args msg sent r sent' text e :
  callMcpTool rt session toolName args msg sent = (inr r, sent') ->
  textContent r = Some text -> text <> "" ->
  JSON_parse rt text = inl e ->
  operation_template rt session toolName args msg true sent
  = (inr (Result.mk "" false (Some (JArr []))
            (Some (msg +:+ ": "
                   +:+ exn_toString (Error ("Failed to parse JSON: " +:+ exn_toString e))))),
     sent').
Proof.
  intros H Ht Hne Hp. unfold operation_template, parseJSON. unfold_M.
  rewrite H, Ht. apply truthy_JStr in Hne. by rewrite Hne, Hp.
Qed.

Lemma failure_record_intro data msg e :
  failure_record (Result.mk "" false data (Some (msg +:+ ": " +:+ exn_toString e))).
Proof.
  repeat split. eexists. split; [done|]. by apply append_nonempty_r.
Qed.

(** Every failure of the call makes [callMcpTool] throw. *)
Lemma call_failure_throws toolName args msg sent :
  call_failure rt session toolName args ->
  exists e sent', callMcpTool rt session toolName args msg sent = (inl e, sent').
Proof.
  intros [e H | argsJSON e H1 H2 | argsJSON response H1 H2 H3 | argsJSON response H1 H2 H3].
  - eauto using callMcpTool_serialization_failure.
  - eauto using callMcpTool_transport_failure.
  - destruct (nullish response) eqn:Hn.
    + eauto using callMcpTool_nullish_response.
    + destruct H3 as [|H3]; [done|]. eauto using callMcpTool_no_data.
  - destruct (callMcpTool_tool_error toolName args msg sent argsJSON response)
      as (cause & -> & _); eauto.
Qed.

(** An operation sends what its call of [callMcpTool] sends. *)
Lemma template_sent toolName args msg with_list sent :
  snd (operation_template rt session toolName args msg with_list sent)
  = match JSON_stringify rt args with
    | inr argsJSON => (sent ++ [request_for session toolName argsJSON])%list
    | inl _ => sent
    end.
Proof.
  rewrite <- (callMcpTool_sent toolName args msg sent).
  unfold operation_template, parseJSON. unfold_M.
  destruct (callMcpTool _ _ _ _ _ _) as [[e|r] sent']; [done|].
  destruct with_list; [|done].
  destruct (textContent r) as [text|]; [|done].
  destruct (truthy (JStr text)); [|done].
  by destruct (JSON_parse rt text).
Qed.

(** ** Properties of the specification *)

(** C1.  None of the six operations throws.  Whatever goes wrong during
    the call, be it the serialisation of the arguments, the transport, a
    response without data, an error reported by the tool or a text that is
    not JSON, the operation returns a record with [success] false, an
    empty [requestId] and an [errorMessage] that is not empty. *)
Theorem operations_return_failure_records o sent :
  exists res sent',
    run rt session o sent = (inr res, sent')
    /\ (operation_failure rt session o sent -> failure_record res).
Proof.
  rewrite run_template.
  destruct (callMcpTool rt session (toolName_of o) (args_of o)
              (defaultErrorMsg_of o) sent) as [[e|r] sent'] eqn:Hcall.
  { erewrite template_call_throws by done.
    do 2 eexists. split; [done|]. intros _. apply failure_record_intro. }
  assert (~ call_failure rt session (toolName_of o) (args_of o)) as Hok.
  { intros Hf.
    destruct (call_failure_throws _ _ (defaultErrorMsg_of o) sent Hf)
      as (e & sent0 & He).
    congruence. }
  destruct (returns_list o) eqn:Hlist.
  - destruct (textContent r) as [text|] eqn:Ht.
    + destruct (decide (text = "")) as [->|Hne].
      * erewrite template_no_text by eauto.
        do 2 eexists. split; [done|].
        intros [Hf | r0 sent0 text0 e0 _ Hcall0 Ht0 Hne0 _]; [done|].
        congruence.
      * destruct (JSON_parse rt text) as [e|v] eqn:Hp.
        -- erewrite template_parse_throws by done.
           do 2 eexists. split; [done|]. intros _. apply failure_record_intro.
        -- erewrite template_parsed by done.
           do 2 eexists. split; [done|].
           intros [Hf | r0 sent0 text0 e0 _ Hcall0 Ht0 _ Hp0]; [done|].
           congruence.
    + erewrite template_no_text by eauto.
      do 2 eexists. split; [done|].
      intros [Hf | r0 sent0 text0 e0 _ Hcall0 Ht0 _ _]; [done|].
      congruence.
  - erewrite template_status by done.
    do 2 eexists. split; [done|].
    intros [Hf | r0 sent0 text0 e0 Hlist0 _ _ _ _]; [done|].
    congruence.
Qed.

(** C4.  When the response of the transport has no data, every operation
    returns a failure record, and the [errorMessage] of the record starts
    with the operation's default error message. *)
Theorem missing_data_gives_failure o sent argsJSON response :
  JSON_stringify rt (args_of o) = inr argsJSON ->
  getClient session (request_for session (toolName_of o) argsJSON) = inr response ->
  nullish response = false ->
  truthy (payload response) = false ->
  exists res rest,
    run rt session o sent
    = (inr res, (sent ++ [request_for session (toolName_of o) argsJSON])%list)
    /\ failure_record res
    /\ Result.errorMessage res = Some (defaultErrorMsg_of o +:+ rest)
    /\ rest = ": " +:+ exn_toString
                (APIError rt ("Failed to call " +:+ toolName_of o
                              +:+ ": Error: Invalid response data format")).
Proof.
  intros H1 H2 H3 H4. rewrite run_template.
  erewrite template_call_throws by (by eapply callMcpTool_no_data).
  do 2 eexists. split; [done|]. split; [apply failure_record_intro|done].
Qed.

(** C5.  [startApp] sends one request to the tool [start_app], whose
    arguments are the serialisation of an object that holds [start_cmd]
    and, of [work_directory] and [activity], exactly those that are not
    the empty string; with both empty or left out, the object is
    [{start_cmd: startCmd}]. *)
Theorem startApp_sends_given_arguments startCmd workDirectory activity sent :
  snd (startApp rt session startCmd workDirectory activity sent)
  = match JSON_stringify rt
            (startApp_args startCmd (default "" workDirectory) (default "" activity)) with
    | inr argsJSON => (sent ++ [request_for session "start_app" argsJSON])%list
    | inl _ => sent
    end
  /\ startApp_args startCmd "" "" = JObj [("start_cmd", JStr startCmd)]
  /\ exists fields,
       startApp_args startCmd (default "" workDirectory) (default "" activity)
       = JObj fields
       /\ lookup_field "start_cmd" fields = Some (JStr startCmd)
       /\ lookup_field "work_directory" fields
          = (if decide (default "" workDirectory = "") then None
             else Some (JStr (default "" workDirectory)))
       /\ lookup_field "activity" fields
          = (if decide (default "" activity = "") then None
             else Some (JStr (default "" activity)))
       /\ forall k, is_Some (lookup_field k fields) ->
            k = "start_cmd" \/ k = "work_directory" \/ k = "activity".
Proof.
  split; [|split; [done|]].
  - change (startApp rt session startCmd workDirectory activity)
      with (run rt session (StartApp startCmd workDirectory activity)).
    rewrite run_template. apply template_sent.
  - unfold startApp_args. cbn [truthy].
    destruct (String.eqb_spec (default "" workDirectory) "") as [->|Hw];
    destruct (String.eqb_spec (default "" activity) "") as [->|Ha];
      cbn [negb app]; eexists; (split; [reflexivity|]);
      repeat case_decide; try done; cbn;
      (do 3 (split; [done|])); intros k [v Hk];
      repeat match type of Hk with
             | context [String.eqb k ?s] =>
                 destruct (String.eqb_spec k s); [by eauto|]
             end;
      done.
Qed.

(** C6.  [getInstalledApps] called without arguments sends the tool
    [get_installed_apps] the object
    [{start_menu: true, desktop: true, ignore_system_apps: true}]. *)
Theorem getInstalledApps_sends_defaults sent :
  snd (getInstalledApps rt session None None None sent)
  = match JSON_stringify rt
            (JObj [("start_menu", JBool true); ("desktop", JBool true);
                   ("ignore_system_apps", JBool true)]) with
    | inr argsJSON => (sent ++ [request_for session "get_installed_apps" argsJSON])%list
    | inl _ => sent
    end.
Proof.
  change (getInstalledApps rt session None None None)
    with (run rt session (GetInstalledApps None None None)).
  rewrite run_template. apply template_sent.
Qed.

(** C2, as amended.  A payload with [isError] true makes [callMcpTool]
    throw, whatever else the response holds.  With content that is an
    array or absent (anything but a plain object), the cause is an error
    made of the [text] of the first content item when that text is truthy
    (for a text that is a non-empty string, the error with that string as
    its message; for a text that cannot be turned into a string, what the
    conversion throws), and of the default error message of the caller
    otherwise: without content, with empty content, and with a first item
    whose [text] is missing or is the empty string.  When the first item's
    [text] is ["boom"], each of the six operations returns a record with
    [success] false and an [errorMessage] in which ["boom"] occurs. *)
Theorem tool_error_raises toolName args msg sent argsJSON response :
  JSON_stringify rt args = inr argsJSON ->
  getClient session (request_for session toolName argsJSON) = inr response ->
  strict_true (get_prop (payload response) "isError") = true ->
  (exists cause,
     callMcpTool rt session toolName args msg sent
     = (inl (APIError rt ("Failed to call " +:+ toolName +:+ ": "
                          +:+ exn_toString cause)),
        (sent ++ [request_for session toolName argsJSON])%list)
     /\ (plain_object (get_prop (payload response) "content") = false ->
         cause = cause_of_truthy_text rt (payload response) msg)
     /\ (forall item rest s,
           get_prop (payload response) "content" = JArr (item :: rest) ->
           get_prop_opt item "text" = JStr s -> s <> "" ->
           cause = Error s))
  /\ (forall o item rest,
        toolName = toolName_of o -> args = args_of o ->
        get_prop (payload response) "content" = JArr (item :: rest) ->
        get_prop_opt item "text" = JStr "boom" ->
        exists res message,
          run rt session o sent
          = (inr res, (sent ++ [request_for session toolName argsJSON])%list)
          /\ Result.success res = false
          /\ Result.errorMessage res = Some message
          /\ contains "boom" message).
Proof.
  intros H1 H2 H3.
  assert (forall cause item rest s,
    (plain_object (get_prop (payload response) "content") = false ->
     cause = cause_of_truthy_text rt (payload response) msg) ->
    get_prop (payload response) "content" = JArr (item :: rest) ->
    get_prop_opt item "text" = JStr s -> s <> "" ->
    cause = Error s) as Hstring.
  { intros cause item rest s Hcause Hc Ht Hne.
    rewrite Hc in Hcause. rewrite (Hcause eq_refl).
    unfold cause_of_truthy_text. rewrite Hc, Ht.
    apply truthy_JStr in Hne. by rewrite Hne. }
  split.
  - destruct (callMcpTool_tool_error toolName args msg sent argsJSON response)
      as (cause & Hcall & Hcause); [assumption..|].
    exists cause. split; [exact Hcall|]. split; [exact Hcause|].
    intros item rest s. by apply Hstring.
  - intros o item rest -> -> Hc Ht.
    destruct (callMcpTool_tool_error (toolName_of o) (args_of o)
                (defaultErrorMsg_of o) sent argsJSON response)
      as (cause & Hcall & Hcause); [assumption..|].
    assert (cause = cause_of_truthy_text rt (payload response) (defaultErrorMsg_of o))
      as -> by (apply Hcause; by rewrite Hc).
    unfold cause_of_truthy_text in Hcall. rewrite Hc, Ht in Hcall.
    change (Error_of rt (JStr "boom")) with (Error "boom") in Hcall.
    change (truthy (JStr "boom")) with true in Hcall. cbv iota in Hcall.
    rewrite run_template. erewrite template_call_throws by exact Hcall.
    do 2 eexists. do 3 (split; [reflexivity|]).
    do 2 apply contains_append_l. apply exn_toString_contains.
    + cbn [wrapped APIError exn_message]. by apply append_nonempty_l.
    + cbn [wrapped APIError exn_message]. do 3 apply contains_append_l.
      by exists "Error: ", "".
Qed.

(** C3, as amended.  For a response that is not marked as an error and
    whose payload carries a content array, [callMcpTool] copies the array
    into the result; when the array is not empty, [textContent] is the
    texts, joined by line feeds and in the order of the array, of exactly
    those items that are objects with a non-empty string under [text], and
    when the array is empty [textContent] stays absent.  The items
    [{text:"a"}, {text:"b"}, {}] give ["a\nb"]. *)
Theorem textContent_joins_nonempty_texts toolName args msg sent argsJSON response items :
  JSON_stringify rt args = inr argsJSON ->
  getClient session (request_for session toolName argsJSON) = inr response ->
  nullish response = false ->
  truthy (payload response) = true ->
  strict_true (get_prop (payload response) "isError") = false ->
  get_prop (payload response) "content" = JArr items ->
  (exists r,
     callMcpTool rt session toolName args msg sent
     = (inr r, (sent ++ [request_for session toolName argsJSON])%list)
     /\ content r = Some (JArr items)
     /\ textContent r =
          match items with
          | [] => None
          | _ :: _ => Some (join_lines (omap nonempty_text items))
          end)
  /\ (items = [JObj [("text", JStr "a")]; JObj [("text", JStr "b")]; JObj []] ->
      exists r sent',
        callMcpTool rt session toolName args msg sent = (inr r, sent')
        /\ textContent r = Some ("a" +:+ LF +:+ "b")).
Proof.
  intros H1 H2 H3 H4 H5 Hc.
  destruct (callMcpTool_success toolName args msg sent argsJSON response)
    as (r & Hcall & _ & _ & _ & Hitems); [done..|].
  destruct (Hitems items Hc) as [Hcontent Htext].
  split; [by eauto|].
  intros ->. exists r. eexists. split; [done|]. by rewrite Htext.
Qed.

(** C7.  When the text handed back to an operation that returns a list is
    the JSON text of an array of [N] records, the operation succeeds and
    the [data] of its result is that array: [N] entries, each the decoded
    record at the same position. *)
Theorem decoded_array_is_returned o sent r sent' text records :
  returns_list o = true ->
  (forall v, JSON_parse rt "" <> inr v) ->
  callMcpTool rt session (toolName_of o) (args_of o) (defaultErrorMsg_of o) sent
    = (inr r, sent') ->
  textContent r = Some text ->
  JSON_parse rt text = inr (JArr records) ->
  exists res entries,
    run rt session o sent = (inr res, sent')
    /\ Result.success res = true
    /\ Result.data res = Some (JArr entries)
    /\ length entries = length records
    /\ forall i, entries !! i = records !! i.
Proof.
  intros Hlist Hempty Hcall Ht Hp.
  assert (text <> "") as Hne by (intros ->; by eapply Hempty).
  rewrite run_template, Hlist. erewrite template_parsed by done.
  by exists (Result.mk (or_empty (requestId r)) true (Some (JArr records)) None), records.
Qed.

(** C8.  When the transport answers with a response whose payload is
    present and not marked as an error, and, for an operation that returns
    a list, the text of the response, if not empty, is valid JSON, the
    operation returns a record with [success] true and, as [requestId],
    the request id extracted from the response (the empty string when
    there is none). *)
Theorem well_formed_response_gives_success o sent argsJSON response :
  JSON_stringify rt (args_of o) = inr argsJSON ->
  getClient session (request_for session (toolName_of o) argsJSON) = inr response ->
  nullish response = false ->
  truthy (payload response) = true ->
  strict_true (get_prop (payload response) "isError") = false ->
  (returns_list o = true ->
   forall r sent' text,
     callMcpTool rt session (toolName_of o) (args_of o) (defaultErrorMsg_of o) sent
       = (inr r, sent') ->
     textContent r = Some text -> text <> "" ->
     exists v, JSON_parse rt text = inr v) ->
  exists res,
    run rt session o sent
    = (inr res, (sent ++ [request_for session (toolName_of o) argsJSON])%list)
    /\ Result.success res = true
    /\ Result.errorMessage res = None
    /\ (forall id, extractRequestId rt response = Some id -> Result.requestId res = id)
    /\ (extractRequestId rt response = None -> Result.requestId res = "").
Proof.
  intros H1 H2 H3 H4 H5 Hjson.
  destruct (callMcpTool_success (toolName_of o) (args_of o)
              (defaultErrorMsg_of o) sent argsJSON response)
    as (r & Hcall & _ & _ & Hid & _); [done..|].
  assert (forall data,
    let res := Result.mk (or_empty (requestId r)) true data None in
    Result.success res = true
    /\ Result.errorMessage res = None
    /\ (forall id, extractRequestId rt response = Some id -> Result.requestId res = id)
    /\ (extractRequestId rt response = None -> Result.requestId res = "")) as Hres.
  { intros data. rewrite Hid. cbn. do 2 (split; [done|]).
    split; [intros id ->|intros ->]; done. }
  rewrite run_template.
  destruct (returns_list o) eqn:Hlist.
  - destruct (textContent r) as [text|] eqn:Ht.
    + destruct (decide (text = "")) as [->|Hne].
      * erewrite template_no_text by eauto. eauto.
      * destruct (Hjson eq_refl r _ text Hcall Ht Hne) as [v Hv].
        erewrite template_parsed by done. eauto.
    + erewrite template_no_text by eauto. eauto.
  - erewrite template_status by done. eauto.
Qed.

(** C9.  A result that [callMcpTool] returns is never marked as an error:
    its [isError] is false, and so is the [isError] of the payload it
    carries, for a payload with [isError] true makes the helper throw. *)
Theorem callMcpTool_returns_no_error_result toolName args msg sent r sent' :
  callMcpTool rt session toolName args msg sent = (inr r, sent') ->
  isError r = false
  /\ strict_true (get_prop (data r) "isError") = false
  /\ exists argsJSON response,
       JSON_stringify rt args = inr argsJSON
       /\ getClient session (request_for session toolName argsJSON) = inr response
       /\ data r = payload response.
Proof.
  unfold callMcpTool. unfold_M.
  intros H. repeat case_match; simplify_eq; eauto 10.
Qed.

(** C10.  The three operations that stop an application look at nothing
    in the result of [callMcpTool] but the request id: when the payload is
    present and not marked as an error they return [success] true
    whatever the content of the response, while an operation that returns
    a list fails when the text of the same response is not JSON. *)
Theorem stop_operations_ignore_text o sent argsJSON response :
  JSON_stringify rt (args_of o) = inr argsJSON ->
  getClient session (request_for session (toolName_of o) argsJSON) = inr response ->
  nullish response = false ->
  truthy (payload response) = true ->
  strict_true (get_prop (payload response) "isError") = false ->
  (returns_list o = false ->
   run rt session o sent
   = (inr (Result.mk (or_empty (extractRequestId rt response)) true None None),
      (sent ++ [request_for session (toolName_of o) argsJSON])%list))
  /\ (returns_list o = true ->
      forall r sent' text e,
        callMcpTool rt session (toolName_of o) (args_of o) (defaultErrorMsg_of o) sent
          = (inr r, sent') ->
        textContent r = Some text -> text <> "" ->
        JSON_parse rt text = inl e ->
        exists res,
          run rt session o sent = (inr res, sent') /\ Result.success res = false).
Proof.
  intros H1 H2 H3 H4 H5. rewrite run_template. split; intros ->.
  - destruct (callMcpTool_success (toolName_of o) (args_of o)
                (defaultErrorMsg_of o) sent argsJSON response)
      as (r & Hcall & _ & _ & Hid & _); [done..|].
    erewrite template_status by done. by rewrite Hid.
  - intros r sent' text e Hcall Ht Hne Hp.
    erewrite template_parse_throws by done. by eexists.
Qed.

End Properties.

(** ** The properties on concrete calls *)

Module Concrete.

Import Sample.

(** A transport that fails: [stopAppByCmd] returns a failure record. *)
Lemma operations_return_failure_records_witness :
  exists res sent',
    run rt (session_answering (inl (Error "socket hang up"))) (StopAppByCmd "kill") []
    = (inr res, sent')
    /\ failure_record res.
Proof.
  destruct (operations_return_failure_records rt
              (session_answering (inl (Error "socket hang up")))
              (StopAppByCmd "kill") []) as (res & sent' & Hrun & Hfail).
  exists res, sent'. split; [exact Hrun|]. apply Hfail.
  apply failed_call. eapply transport_failure; reflexivity.
Defined.

(** A tool error that says ["boom"]: [startApp] reports it. *)
Lemma tool_error_raises_witness :
  exists res sent' message,
    run rt (session_answering (inr (response_with error_boom)))
      (StartApp "run.sh" None None) []
    = (inr res, sent')
    /\ Result.success res = false
    /\ Result.errorMessage res = Some message
    /\ contains "boom" message.
Proof.
  edestruct (tool_error_raises rt
               (session_answering (inr (response_with error_boom)))
               "start_app" (args_of (StartApp "run.sh" None None))
               "Failed to start app" []) as [_ Hrun]; [reflexivity..|].
  edestruct (Hrun (StartApp "run.sh" None None)) as (res & message & H);
    [reflexivity..|].
  exists res. eexists. exists message. exact H.
Defined.

(** The content [{text:"a"}, {text:"b"}, {}]. *)
Lemma textContent_joins_nonempty_texts_witness :
  exists r sent',
    callMcpTool rt
      (session_answering
         (inr (response_with
                 (JObj [("content", JArr [text_item "a"; text_item "b"; JObj []])]))))
      "list_visible_apps" (JObj []) "Failed to list visible apps" []
    = (inr r, sent')
    /\ CallMcpToolResult.textContent r = Some ("a" +:+ LF +:+ "b").
Proof.
  edestruct (textContent_joins_nonempty_texts rt
               (session_answering
                  (inr (response_with
                          (JObj [("content",
                                  JArr [text_item "a"; text_item "b"; JObj []])]))))
               "list_visible_apps" (JObj []) "Failed to list visible apps" [])
    as [_ H]; [reflexivity..|].
  apply H. reflexivity.
Defined.

(** A response without body, hence without data. *)
Lemma missing_data_gives_failure_witness :
  exists res rest sent',
    run rt (session_answering (inr (JObj [("statusCode", JNum 200)])))
      (GetInstalledApps None None None) []
    = (inr res, sent')
    /\ failure_record res
    /\ Result.errorMessage res = Some ("Failed to get installed apps" +:+ rest).
Proof.
  edestruct (missing_data_gives_failure rt
               (session_answering (inr (JObj [("statusCode", JNum 200)])))
               (GetInstalledApps None None None) [])
    as (res & rest & Hrun & Hfail & Hmsg & _); [reflexivity..|].
  exists res, rest. eexists. split; [exact Hrun|]. split; [exact Hfail|exact Hmsg].
Defined.

(** [startApp("run.sh", "", "")]. *)
Lemma startApp_sends_given_arguments_witness :
  startApp_args "run.sh" "" "" = JObj [("start_cmd", JStr "run.sh")]
  /\ exists argsJSON,
       stringify (JObj [("start_cmd", JStr "run.sh")]) = inr argsJSON
       /\ snd (startApp rt (session_answering (inr (response_with two_processes)))
                 "run.sh" (Some "") (Some "") [])
          = [mkRequest "Bearer key" "s-1" "start_app" argsJSON].
Proof.
  destruct (startApp_sends_given_arguments rt
              (session_answering (inr (response_with two_processes)))
              "run.sh" (Some "") (Some "") []) as (Hsent & Hargs & _).
  split; [exact Hargs|]. eexists. split; [reflexivity|]. exact Hsent.
Defined.

(** The text of two processes comes back as two records. *)
Lemma decoded_array_is_returned_witness :
  exists res sent',
    run rt (session_answering (inr (response_with two_processes))) ListVisibleApps []
    = (inr res, sent')
    /\ Result.success res = true
    /\ Result.data res = Some (JArr processes).
Proof.
  edestruct (decoded_array_is_returned rt
               (session_answering (inr (response_with two_processes)))
               ListVisibleApps [])
    as (res & entries & Hrun & Hok & Hdata & Hlen & Hnth);
    [reflexivity | intros v H; vm_compute in H; discriminate H
    | reflexivity | reflexivity | reflexivity |].
  exists res. eexists. split; [exact Hrun|]. split; [exact Hok|].
  rewrite Hdata. do 2 f_equal. apply list_eq. exact Hnth.
Defined.

(** A response with request id ["R1"]. *)
Lemma well_formed_response_gives_success_witness :
  exists res sent',
    run rt (session_answering (inr (response_with two_processes)))
      (GetInstalledApps None None None) []
    = (inr res, sent')
    /\ Result.success res = true
    /\ Result.requestId res = "R1".
Proof.
  edestruct (well_formed_response_gives_success rt
               (session_answering (inr (response_with two_processes)))
               (GetInstalledApps None None None) [])
    as (res & Hrun & Hok & _ & Hid & _); [reflexivity..| |].
  - intros _ r sent' text [= <- <-] [= <-] _. eexists. reflexivity.
  - exists res. eexists. split; [exact Hrun|]. split; [exact Hok|].
    apply Hid. reflexivity.
Defined.

(** A result that is returned. *)
Lemma callMcpTool_returns_no_error_result_witness :
  exists r sent',
    callMcpTool rt (session_answering (inr (response_with two_processes)))
      "list_visible_apps" (JObj []) "Failed to list visible apps" []
    = (inr r, sent')
    /\ CallMcpToolResult.isError r = false
    /\ strict_true (get_prop (CallMcpToolResult.data r) "isError") = false.
Proof.
  do 2 eexists. split; [reflexivity|].
  edestruct (callMcpTool_returns_no_error_result rt
               (session_answering (inr (response_with two_processes)))
               "list_visible_apps" (JObj []) "Failed to list visible apps" [])
    as (H1 & H2 & _); [reflexivity|].
  split; [exact H1|exact H2].
Defined.

(** A text that is not JSON does not stop [stopAppByPName]. *)
Lemma stop_operations_ignore_text_witness :
  exists sent',
    run rt (session_answering (inr (response_with not_json))) (StopAppByPName "vi") []
    = (inr (Result.mk "R1" true None None), sent').
Proof.
  edestruct (stop_operations_ignore_text rt
               (session_answering (inr (response_with not_json)))
               (StopAppByPName "vi") []) as [H _]; [reflexivity..|].
  eexists. apply H. reflexivity.
Defined.

(** ** Where the specification says more than the code does *)

(** C2, as first stated, takes the [text] of the first content item
    whenever the field is there.  When the field holds the empty string,
    [callMcpTool] raises with the default error message instead. *)
Lemma empty_text_raises_default :
  first_text_field error_with_empty_text = Some (JStr "")
  /\ cause_of_present_text rt error_with_empty_text "Failed to stop app by pid"
     = Error ""
  /\ fst (callMcpTool rt (session_answering (inr (response_with error_with_empty_text)))
            "stop_app_by_pid" (JObj [("pid", JNum 7)]) "Failed to stop app by pid" [])
     = inl (wrapped rt "stop_app_by_pid" (Error "Failed to stop app by pid"))
  /\ fst (callMcpTool rt (session_answering (inr (response_with error_with_empty_text)))
            "stop_app_by_pid" (JObj [("pid", JNum 7)]) "Failed to stop app by pid" [])
     <> inl (wrapped rt "stop_app_by_pid"
               (cause_of_present_text rt error_with_empty_text
                  "Failed to stop app by pid")).
Proof. repeat split. discriminate. Qed.

(** C3, as first stated, skips only the items without a string [text].
    An item whose [text] is the empty string is skipped as well, so no
    empty line stands for it in [textContent]. *)
Lemma empty_text_is_skipped :
  textContent_of_string_texts texts_with_empty = "a" +:+ LF +:+ "" +:+ LF +:+ "b"
  /\ exists r sent',
       callMcpTool rt
         (session_answering
            (inr (response_with (JObj [("content", JArr texts_with_empty)]))))
         "list_visible_apps" (JObj []) "Failed to list visible apps" []
       = (inr r, sent')
       /\ CallMcpToolResult.textContent r = Some ("a" +:+ LF +:+ "b")
       /\ CallMcpToolResult.textContent r
          <> Some (textContent_of_string_texts texts_with_empty).
Proof.
  split; [reflexivity|]. do 2 eexists. split; [reflexivity|].
  split; [reflexivity|discriminate].
Qed.

End Concrete.

(** ** Further properties of the wrapper *)

Section Further.

Context (rt : Runtime) (session : Session).

Implicit Types (o : operation) (sent : list CallMcpToolRequest).
Implicit Types (toolName argsJSON msg : string) (args response : value).

Import CallMcpToolResult.

Ltac unfold_all :=
  unfold run, getInstalledApps, startApp, stopAppByPName, stopAppByPID,
    stopAppByCmd, listVisibleApps, operation_template, callMcpTool, parseJSON,
    try_catch, bind, lift, await_callMcpTool, throw, ret, read_prop,
    request_for, payload in *.

Lemma exn_toString_Error (message : string) :
  message <> "" -> exn_toString (Error message) = "Error: " +:+ message.
Proof.
  intros Hne. unfold exn_toString, Error. cbn [exn_name exn_message].
  change (String.eqb "Error" "") with false. cbv iota.
  by destruct (String.eqb_spec message "").
Qed.

Lemma nonempty_text_nonempty (item : value) (s : string) :
  nonempty_text item = Some s -> s <> "".
Proof.
  unfold nonempty_text. intros H.
  repeat case_match; simplify_eq; done.
Qed.

Lemma join_lines_nonempty (part : string) (parts : list string) :
  part <> "" -> join_lines (part :: parts) <> "".
Proof.
  intros Hne. unfold join_lines. cbn [String.concat].
  destruct parts; [done|]. by apply append_nonempty_l.
Qed.

Lemma joined_texts_nonempty (items : list value) (part : string) (parts : list string) :
  omap nonempty_text items = part :: parts ->
  join_lines (omap nonempty_text items) <> "".
Proof.
  intros H. rewrite H. apply join_lines_nonempty.
  assert (part ∈ omap nonempty_text items) as Hin by (rewrite H; left).
  apply list_elem_of_omap in Hin as (item & _ & Hitem).
  by eapply nonempty_text_nonempty.
Qed.

(** X1.  The three operations that stop an application and
    [listVisibleApps] each send one request, which names their tool and
    carries the serialisation of [{pname}], [{pid}], [{stop_cmd}] and [{}];
    when the serialisation throws they send nothing. *)
Theorem status_operations_send_their_argument pname pid stopCmd sent :
  let sends (args : value) (toolName : string) (after : list CallMcpToolRequest) :=
    after = match JSON_stringify rt args with
            | inr argsJSON =>
                (sent ++ [mkRequest ("Bearer " +:+ getAPIKey session)
                            (getSessionId session) toolName argsJSON])%list
            | inl _ => sent
            end in
  sends (JObj [("pname", JStr pname)]) "stop_app_by_pname"
        (snd (stopAppByPName rt session pname sent))
  /\ sends (JObj [("pid", JNum pid)]) "stop_app_by_pid"
           (snd (stopAppByPID rt session pid sent))
  /\ sends (JObj [("stop_cmd", JStr stopCmd)]) "stop_app_by_cmd"
           (snd (stopAppByCmd rt session stopCmd sent))
  /\ sends (JObj []) "list_visible_apps" (snd (listVisibleApps rt session sent)).
Proof.
  cbv zeta. repeat split.
  - apply (template_sent rt session "stop_app_by_pname" _ "Failed to stop app by pname" false).
  - apply (template_sent rt session "stop_app_by_pid" _ "Failed to stop app by pid" false).
  - apply (template_sent rt session "stop_app_by_cmd" _ "Failed to stop app by command" false).
  - apply (template_sent rt session "list_visible_apps" _ "Failed to list visible apps" true).
Qed.

(** X2.  [getInstalledApps] sends its three flags under the keys
    [start_menu], [desktop] and [ignore_system_apps], in this order, each
    flag that is left out as [true]. *)
Theorem getInstalledApps_sends_flags startMenu desktop ignoreSystemApps sent :
  snd (getInstalledApps rt session startMenu desktop ignoreSystemApps sent)
  = match JSON_stringify rt
            (JObj [("start_menu", JBool (default true startMenu));
                   ("desktop", JBool (default true desktop));
                   ("ignore_system_apps", JBool (default true ignoreSystemApps))]) with
    | inr argsJSON =>
        (sent ++ [mkRequest ("Bearer " +:+ getAPIKey session) (getSessionId session)
                    "get_installed_apps" argsJSON])%list
    | inl _ => sent
    end.
Proof.
  apply (template_sent rt session "get_installed_apps" _
           "Failed to get installed apps" true).
Qed.

(** X3.  Whatever makes [callMcpTool] throw, what it throws is an
    [APIError] whose message is ["Failed to call "], the name of the tool,
    [": "] and the rendering of the cause, and the cause is one of these:
    what [JSON.stringify] threw, what the transport rejected with, the
    [TypeError] of reading [body] off [null] or [undefined], the error
    ["Invalid response data format"] for a payload that is not truthy,
    or, for a payload marked as an error, the error made of the first
    text or of the default error message. *)
Theorem callMcpTool_throws_APIError toolName args msg sent e sent' :
  callMcpTool rt session toolName args msg sent = (inl e, sent') ->
  exists cause,
    e = APIError rt ("Failed to call " +:+ toolName +:+ ": " +:+ exn_toString cause)
    /\ (JSON_stringify rt args = inl cause
        \/ exists argsJSON,
             JSON_stringify rt args = inr argsJSON
             /\ (getClient session (request_for session toolName argsJSON) = inl cause
                 \/ exists response,
                      getClient session (request_for session toolName argsJSON)
                      = inr response
                      /\ ((nullish response = true
                           /\ cause = read_of_nullish rt response "body")
                          \/ (nullish response = false
                              /\ truthy (payload response) = false
                              /\ cause = Error "Invalid response data format")
                          \/ (strict_true (get_prop (payload response) "isError") = true
                              /\ (plain_object (get_prop (payload response) "content")
                                  = false ->
                                  cause = cause_of_truthy_text rt (payload response)
                                            msg))))).
Proof.
  intros H.
  destruct (JSON_stringify rt args) as [cause|argsJSON] eqn:H1.
  { rewrite (callMcpTool_serialization_failure rt session _ _ _ _ _ H1) in H.
    injection H as <- _. exists cause. split; [reflexivity|by left]. }
  destruct (getClient session (request_for session toolName argsJSON))
    as [cause|response] eqn:H2.
  { rewrite (callMcpTool_transport_failure rt session _ _ _ _ _ _ H1 H2) in H.
    injection H as <- _. exists cause. split; [reflexivity|].
    right. exists argsJSON. split; [reflexivity|by left]. }
  destruct (nullish response) eqn:H3.
  { rewrite (callMcpTool_nullish_response rt session _ _ _ _ _ _ H1 H2 H3) in H.
    injection H as <- _. eexists. split; [reflexivity|].
    right. exists argsJSON. split; [reflexivity|]. right. exists response.
    split; [exact H2|]. left. by split. }
  destruct (truthy (payload response)) eqn:H4.
  2:{ rewrite (callMcpTool_no_data rt session _ _ _ _ _ _ H1 H2 H3 H4) in H.
      injection H as <- _. eexists. split; [reflexivity|].
      right. exists argsJSON. split; [reflexivity|]. right. exists response.
      split; [exact H2|]. right. left. by repeat split. }
  destruct (strict_true (get_prop (payload response) "isError")) eqn:H5.
  - destruct (callMcpTool_tool_error rt session toolName args msg sent
                argsJSON response H1 H2 H5) as (cause & Hcall & Hcause).
    rewrite Hcall in H. injection H as <- _. exists cause.
    split; [reflexivity|].
    right. exists argsJSON. split; [reflexivity|]. right. exists response.
    split; [exact H2|]. right. right. by split.
  - destruct (callMcpTool_success rt session toolName args msg sent
                argsJSON response H1 H2 H3 H4 H5) as (r & Hcall & _).
    rewrite Hcall in H. discriminate H.
Qed.

Lemma contains_self (s : string) : contains s s.
Proof. exists "", "". by rewrite append_empty_r. Qed.

Lemma contains_prefix (s rest : string) : contains s (s +:+ rest).
Proof. by exists "", rest. Qed.

(** The rendering of an error thrown by [callMcpTool] shows the tool and
    the cause. *)
Lemma wrapped_contains toolName (cause : exn) :
  contains (exn_toString cause) (exn_toString (wrapped rt toolName cause))
  /\ contains toolName (exn_toString (wrapped rt toolName cause)).
Proof.
  split; apply exn_toString_contains; cbn [wrapped APIError exn_message];
    try (by apply append_nonempty_l).
  - do 3 apply contains_append_l. apply contains_self.
  - apply contains_append_l, contains_prefix.
Qed.

(** The result of [callMcpTool] on a response that is not marked as an
    error, with its text. *)
Lemma callMcpTool_success_text toolName args msg sent argsJSON response :
  JSON_stringify rt args = inr argsJSON ->
  getClient session (request_for session toolName argsJSON) = inr response ->
  nullish response = false ->
  truthy (payload response) = true ->
  strict_true (get_prop (payload response) "isError") = false ->
  exists r,
    callMcpTool rt session toolName args msg sent
    = (inr r, (sent ++ [request_for session toolName argsJSON])%list)
    /\ requestId r = extractRequestId rt response
    /\ textContent r =
         match get_prop (payload response) "content" with
         | JArr (item :: items) =>
             Some (join_lines (omap nonempty_text (item :: items)))
         | _ => None
         end.
Proof.
  intros H1 H2 H3 H4 H5. unfold_all. rewrite H1, H2, H3, H4, H5. cbn [negb].
  destruct (get_prop (get_prop_opt (get_prop response "body") "data") "content")
    as [| |b|n|s|items|fields];
    try (eexists; split; [reflexivity|]; by split).
  destruct items as [|item items]; cbn [length Nat.ltb Nat.leb];
    (eexists; split; [reflexivity|]); (split; [done|]); [done|].
  cbn [textContent set_textContent]. by rewrite collect_text_nonempty.
Qed.

(** X4.  The record an operation returns has one of two shapes.  On
    success the error message is absent and the request id is the one of
    the result of [callMcpTool], or empty.  On failure the request id is
    empty, the list operations carry an empty array, and the error
    message is the operation's default error message, [": "] and the
    rendering of what was caught: the error [callMcpTool] threw, or the
    error of [parseJSON] about a text that is not JSON.  [data] is
    present exactly for the operations that return a list. *)
Theorem operation_result_shape o sent :
  exists res sent',
    run rt session o sent = (inr res, sent')
    /\ (is_Some (Result.data res) <-> returns_list o = true)
    /\ ((Result.success res = true
         /\ Result.errorMessage res = None
         /\ exists r,
              callMcpTool rt session (toolName_of o) (args_of o)
                (defaultErrorMsg_of o) sent = (inr r, sent')
              /\ Result.requestId res = or_empty (requestId r))
        \/ (Result.success res = false
            /\ Result.requestId res = ""
            /\ Result.data res = (if returns_list o then Some (JArr []) else None)
            /\ exists cause,
                 Result.errorMessage res
                 = Some (defaultErrorMsg_of o +:+ ": " +:+ exn_toString cause)
                 /\ (callMcpTool rt session (toolName_of o) (args_of o)
                       (defaultErrorMsg_of o) sent = (inl cause, sent')
                     \/ exists r text e,
                          returns_list o = true
                          /\ callMcpTool rt session (toolName_of o) (args_of o)
                               (defaultErrorMsg_of o) sent = (inr r, sent')
                          /\ textContent r = Some text
                          /\ text <> ""
                          /\ JSON_parse rt text = inl e
                          /\ cause = Error ("Failed to parse JSON: "
                                            +:+ exn_toString e)))).
Proof.
  assert (forall b : bool, is_Some (if b then Some (JArr []) else None) <-> b = true)
    as Hdata.
  { intros []; split; intros H; done. }
  assert (forall (v : value), is_Some (Some v) <-> true = true) as Hsome
    by (intros v; split; [done|by eexists]).
  rewrite run_template.
  destruct (callMcpTool rt session (toolName_of o) (args_of o)
              (defaultErrorMsg_of o) sent) as [[cause|r] sent'] eqn:Hcall.
  { erewrite template_call_throws by exact Hcall.
    do 2 eexists. split; [reflexivity|].
    split; [apply Hdata|]. right. do 3 (split; [reflexivity|]).
    exists cause. split; [reflexivity|by left]. }
  destruct (returns_list o) eqn:Hlist.
  - destruct (textContent r) as [text|] eqn:Ht.
    + destruct (decide (text = "")) as [->|Hne].
      * erewrite template_no_text by eauto.
        do 2 eexists. split; [reflexivity|]. split; [apply Hsome|].
        left. do 2 (split; [reflexivity|]). by exists r.
      * destruct (JSON_parse rt text) as [e|v] eqn:Hp.
        -- erewrite template_parse_throws by eassumption.
           do 2 eexists. split; [reflexivity|]. split; [apply Hsome|].
           right. do 3 (split; [reflexivity|]).
           eexists. split; [reflexivity|]. right. exists r, text, e.
           by repeat split.
        -- erewrite template_parsed by eassumption.
           do 2 eexists. split; [reflexivity|]. split; [apply Hsome|].
           left. do 2 (split; [reflexivity|]). by exists r.
    + erewrite template_no_text by eauto.
      do 2 eexists. split; [reflexivity|]. split; [apply Hsome|].
      left. do 2 (split; [reflexivity|]). by exists r.
  - erewrite template_status by exact Hcall.
    do 2 eexists. split; [reflexivity|].
    split; [split; [by intros []|done]|].
    left. do 2 (split; [reflexivity|]). by exists r.
Qed.

(** X5.  When the arguments cannot be serialised, when the transport
    rejects the request, or when it answers [null] or [undefined], the
    operation reports the error it caught: its rendering and the name of
    the tool occur in the error message.  A request has gone out in the
    last two cases only. *)
Theorem underlying_error_is_reported o sent e :
  (JSON_stringify rt (args_of o) = inl e
   \/ exists argsJSON,
        JSON_stringify rt (args_of o) = inr argsJSON
        /\ (getClient session (request_for session (toolName_of o) argsJSON) = inl e
            \/ exists response,
                 getClient session (request_for session (toolName_of o) argsJSON)
                 = inr response
                 /\ nullish response = true
                 /\ e = read_of_nullish rt response "body")) ->
  exists res sent' message,
    run rt session o sent = (inr res, sent')
    /\ Result.success res = false
    /\ Result.errorMessage res = Some message
    /\ message = defaultErrorMsg_of o +:+ ": "
                 +:+ exn_toString
                       (APIError rt ("Failed to call " +:+ toolName_of o +:+ ": "
                                     +:+ exn_toString e))
    /\ contains (exn_toString e) message
    /\ contains (toolName_of o) message
    /\ (sent' = sent <-> exists e', JSON_stringify rt (args_of o) = inl e').
Proof.
  intros H. rewrite run_template.
  assert (exists sent',
    callMcpTool rt session (toolName_of o) (args_of o) (defaultErrorMsg_of o) sent
    = (inl (wrapped rt (toolName_of o) e), sent')
    /\ (sent' = sent <-> exists e', JSON_stringify rt (args_of o) = inl e'))
    as (sent' & Hcall & Hsent).
  { destruct H as [H1 | (argsJSON & H1 & [H2 | (response & H2 & H3 & ->)])].
    - eexists. split; [by apply callMcpTool_serialization_failure|].
      split; [by eauto|done].
    - eexists. split; [by eapply callMcpTool_transport_failure|].
      split; [intros Heq|intros [e' He']; congruence].
      apply (f_equal length) in Heq. rewrite length_app in Heq. cbn in Heq. lia.
    - eexists. split; [by eapply callMcpTool_nullish_response|].
      split; [intros Heq|intros [e' He']; congruence].
      apply (f_equal length) in Heq. rewrite length_app in Heq. cbn in Heq. lia. }
  erewrite template_call_throws by exact Hcall.
  destruct (wrapped_contains (toolName_of o) e) as [Hcause Htool].
  do 3 eexists. do 4 (split; [reflexivity|]).
  split; [|split; [|exact Hsent]]; by do 2 apply contains_append_l.
Qed.

(** X6.  When some content item of an unmarked response has a non-empty
    string text, an operation that returns a list hands the joined texts
    to [JSON.parse] and lets it decide.  A value it returns becomes
    [data] as it is, array or not.  When it throws, the operation fails
    with an empty request id, although the response had one, and with the
    message ["<default>: Error: Failed to parse JSON: <cause>"]. *)
Theorem list_operation_parses_joined_text o sent argsJSON response items part parts :
  returns_list o = true ->
  JSON_stringify rt (args_of o) = inr argsJSON ->
  getClient session (request_for session (toolName_of o) argsJSON) = inr response ->
  nullish response = false ->
  truthy (payload response) = true ->
  strict_true (get_prop (payload response) "isError") = false ->
  get_prop (payload response) "content" = JArr items ->
  omap nonempty_text items = part :: parts ->
  run rt session o sent
  = (match JSON_parse rt (join_lines (part :: parts)) with
     | inr v =>
         inr (Result.mk (or_empty (extractRequestId rt response)) true (Some v) None)
     | inl e =>
         inr (Result.mk "" false (Some (JArr []))
                (Some (defaultErrorMsg_of o +:+ ": Error: Failed to parse JSON: "
                       +:+ exn_toString e)))
     end,
     (sent ++ [request_for session (toolName_of o) argsJSON])%list).
Proof.
  intros Hlist H1 H2 H3 H4 H5 Hc Hparts.
  destruct (callMcpTool_success_text (toolName_of o) (args_of o)
              (defaultErrorMsg_of o) sent argsJSON response)
    as (r & Hcall & Hid & Htext); [assumption..|].
  rewrite Hc in Htext.
  assert (textContent r = Some (join_lines (part :: parts))) as Ht.
  { rewrite Htext. destruct items; [discriminate Hparts|]. by rewrite Hparts. }
  assert (join_lines (part :: parts) <> "") as Hne.
  { rewrite <- Hparts. by eapply joined_texts_nonempty. }
  rewrite run_template, Hlist.
  destruct (JSON_parse rt (join_lines (part :: parts))) as [e|v] eqn:Hp.
  - erewrite template_parse_throws by eassumption.
    rewrite exn_toString_Error by (by apply append_nonempty_l).
    reflexivity.
  - erewrite template_parsed by eassumption. by rewrite Hid.
Qed.

(** X7.  When no content item of an unmarked response has a non-empty
    string text, be it that the content is missing, is not an array, is
    empty or holds other things, an operation that returns a list
    succeeds with an empty array, and [JSON.parse] has no say. *)
Theorem list_operation_without_text o sent argsJSON response :
  returns_list o = true ->
  JSON_stringify rt (args_of o) = inr argsJSON ->
  getClient session (request_for session (toolName_of o) argsJSON) = inr response ->
  nullish response = false ->
  truthy (payload response) = true ->
  strict_true (get_prop (payload response) "isError") = false ->
  (forall items,
     get_prop (payload response) "content" = JArr items ->
     omap nonempty_text items = []) ->
  run rt session o sent
  = (inr (Result.mk (or_empty (extractRequestId rt response)) true (Some (JArr [])) None),
     (sent ++ [request_for session (toolName_of o) argsJSON])%list).
Proof.
  intros Hlist H1 H2 H3 H4 H5 Hnone.
  destruct (callMcpTool_success_text (toolName_of o) (args_of o)
              (defaultErrorMsg_of o) sent argsJSON response)
    as (r & Hcall & Hid & Htext); [assumption..|].
  rewrite run_template, Hlist, <- Hid.
  eapply template_no_text; [exact Hcall|].
  rewrite Htext.
  destruct (get_prop (payload response) "content")
    as [| |b|n|s|items|fields]; try (by left).
  destruct items as [|item items]; [by left|].
  right. by rewrite (Hnone _ eq_refl).
Qed.

(** A property that is neither [length] nor an index is [undefined] on
    everything but a plain object. *)
Lemma get_prop_non_object (v : value) (k : string) :
  plain_object v = false ->
  String.eqb k "length" = false -> array_index k = None ->
  get_prop v k = JUndefined.
Proof.
  intros Hv Hk Hi. destruct v; try done; cbn; by rewrite Hk, Hi.
Qed.

(** X8.  The wrapper asks of the payload only that it be truthy.  A
    payload that is not a plain object, such as a string, a number that
    is not zero or an array, counts as a success without content: the
    operations that stop an application succeed, and the ones that return
    a list succeed with an empty array. *)
Theorem non_object_payload_is_accepted o sent argsJSON response :
  JSON_stringify rt (args_of o) = inr argsJSON ->
  getClient session (request_for session (toolName_of o) argsJSON) = inr response ->
  nullish response = false ->
  truthy (payload response) = true ->
  plain_object (payload response) = false ->
  run rt session o sent
  = (inr (Result.mk (or_empty (extractRequestId rt response)) true
            (if returns_list o then Some (JArr []) else None) None),
     (sent ++ [request_for session (toolName_of o) argsJSON])%list).
Proof.
  intros H1 H2 H3 H4 Hobj.
  assert (get_prop (payload response) "isError" = JUndefined) as Herr
    by (by apply get_prop_non_object).
  assert (get_prop (payload response) "content" = JUndefined) as Hcontent
    by (by apply get_prop_non_object).
  destruct (callMcpTool_success_text (toolName_of o) (args_of o)
              (defaultErrorMsg_of o) sent argsJSON response)
    as (r & Hcall & Hid & Htext); [try assumption..|].
  { by rewrite Herr. }
  rewrite Hcontent in Htext.
  rewrite run_template, <- Hid. destruct (returns_list o).
  - eapply template_no_text; [exact Hcall|by left].
  - by eapply template_status.
Qed.

(** X9.  Of the response an operation uses the payload and the request
    id and nothing else: two answers that agree on both, whatever their
    status code and the rest of their body, and whatever the session they
    came through, give the same result. *)
Theorem only_payload_and_request_id_matter o sent argsJSON response
    (session' : Session) sent' response' :
  JSON_stringify rt (args_of o) = inr argsJSON ->
  getClient session (request_for session (toolName_of o) argsJSON) = inr response ->
  getClient session' (request_for session' (toolName_of o) argsJSON) = inr response' ->
  nullish response = false ->
  nullish response' = false ->
  payload response = payload response' ->
  extractRequestId rt response = extractRequestId rt response' ->
  fst (run rt session o sent) = fst (run rt session' o sent').
Proof.
  intros H1 H2 H2' H3 H3' Hp Hid.
  rewrite !run_template. unfold_all.
  rewrite H1, H2, H2', H3, H3', Hp, Hid.
  destruct (truthy (get_prop_opt (get_prop response' "body") "data")); [|done].
  cbn [negb].
  destruct (strict_true _).
  - destruct (truthy (get_prop _ "content"));
      [destruct (gt_zero rt _) as [e|[]]|]; try reflexivity.
    destruct (truthy (get_prop_opt _ "text")); [|reflexivity].
    destruct (ToString rt _); reflexivity.
  - destruct (returns_list o);
      destruct (get_prop _ "content") as [| |b|n|s|items|fields];
      try reflexivity;
      destruct (0 <? length items)%nat; try reflexivity;
      cbn [textContent set_textContent set_content];
      destruct (truthy (JStr _)); try reflexivity;
      destruct (JSON_parse rt _); reflexivity.
Qed.

(** A result is returned only for a response with a truthy payload that
    is not marked as an error. *)
Lemma callMcpTool_returned_for toolName args msg sent r sent' :
  callMcpTool rt session toolName args msg sent = (inr r, sent') ->
  exists argsJSON response,
    JSON_stringify rt args = inr argsJSON
    /\ getClient session (request_for session toolName argsJSON) = inr response
    /\ nullish response = false
    /\ truthy (payload response) = true
    /\ strict_true (get_prop (payload response) "isError") = false.
Proof.
  unfold_all. intros H.
  destruct (JSON_stringify rt args) as [e|argsJSON]; [discriminate H|].
  destruct (getClient session _) as [e|response] eqn:H2; [discriminate H|].
  destruct (nullish response) eqn:H3; [discriminate H|].
  destruct (truthy (get_prop_opt (get_prop response "body") "data")) eqn:H4;
    [|discriminate H].
  destruct (strict_true (get_prop (get_prop_opt (get_prop response "body") "data")
                           "isError")) eqn:H5; [|by eauto 10].
  cbn [negb] in H.
  repeat case_match; simplify_eq.
Qed.


(** X10.  A result that [callMcpTool] returns is read off the response
    the transport gave to the one request that went out: its payload,
    which is truthy, its request id, its status code or [0] when that is
    falsy, and, taken from the payload, the content when it is an array
    and the joined texts when that array is not empty.  The result is
    not marked as an error and holds no error message. *)
Theorem returned_result_is_read_off_payload toolName args msg sent r sent' :
  callMcpTool rt session toolName args msg sent = (inr r, sent') ->
  exists argsJSON response,
    JSON_stringify rt args = inr argsJSON
    /\ getClient session (request_for session toolName argsJSON) = inr response
    /\ sent' = (sent ++ [request_for session toolName argsJSON])%list
    /\ data r = payload response
    /\ truthy (data r) = true
    /\ isError r = false
    /\ errorMsg r = None
    /\ requestId r = extractRequestId rt response
    /\ statusCode r = (if truthy (get_prop response "statusCode")
                       then get_prop response "statusCode" else JNum 0)
    /\ content r = match get_prop (data r) "content" with
                   | JArr items => Some (JArr items)
                   | _ => None
                   end
    /\ textContent r = match get_prop (data r) "content" with
                       | JArr (item :: items) =>
                           Some (join_lines (omap nonempty_text (item :: items)))
                       | _ => None
                       end.
Proof.
  intros H.
  destruct (callMcpTool_returned_for _ _ _ _ _ _ H)
    as (argsJSON & response & H1 & H2 & H3 & H4 & H5).
  exists argsJSON, response. do 2 (split; [assumption|]).
  unfold_all. rewrite H1, H2, H3, H4, H5 in H. cbn [negb] in H.
  destruct (get_prop _ "content") as [| |b|n|s|items|fields] eqn:Hc;
    [..|destruct items as [|item items]; cbn [length Nat.ltb Nat.leb] in H|];
    injection H as <- <-;
    cbn [data content textContent errorMsg statusCode isError requestId
         set_content set_textContent];
    rewrite ?Hc, ?collect_text_nonempty;
    (split; [reflexivity|]); (split; [reflexivity|]); (split; [exact H4|]);
    by repeat split.
Qed.

(** X11.  When the payload is marked as an error and its content is an
    array or absent, the operation fails with the message
    ["<default>: "] followed by the rendering of the [APIError] for the
    cause: the error made of the first text when that text is truthy, the
    error with the default error message otherwise, so that this message
    is then there twice. *)
Theorem tool_error_is_reported o sent argsJSON response :
  JSON_stringify rt (args_of o) = inr argsJSON ->
  getClient session (request_for session (toolName_of o) argsJSON) = inr response ->
  strict_true (get_prop (payload response) "isError") = true ->
  plain_object (get_prop (payload response) "content") = false ->
  run rt session o sent
  = (inr (Result.mk "" false (if returns_list o then Some (JArr []) else None)
            (Some (defaultErrorMsg_of o +:+ ": "
                   +:+ exn_toString
                         (APIError rt
                            ("Failed to call " +:+ toolName_of o +:+ ": "
                             +:+ exn_toString
                                   (cause_of_truthy_text rt (payload response)
                                      (defaultErrorMsg_of o))))))),
     (sent ++ [request_for session (toolName_of o) argsJSON])%list).
Proof.
  intros H1 H2 H3 Hc.
  destruct (callMcpTool_tool_error rt session (toolName_of o) (args_of o)
              (defaultErrorMsg_of o) sent argsJSON response)
    as (cause & Hcall & Hcause); [assumption..|].
  rewrite (Hcause Hc) in Hcall.
  rewrite run_template. by erewrite template_call_throws by exact Hcall.
Qed.

End Further.

(** ** The further properties on concrete calls *)

Module Cases.

Import Sample.

(** A transport that fails under [callMcpTool]. *)
Lemma callMcpTool_throws_APIError_witness :
  exists cause,
    wrapped rt "stop_app_by_cmd" (Error "socket hang up")
    = APIError rt ("Failed to call " +:+ "stop_app_by_cmd" +:+ ": "
                   +:+ exn_toString cause)
    /\ cause = Error "socket hang up".
Proof.
  edestruct (callMcpTool_throws_APIError rt
               (session_answering (inl (Error "socket hang up")))
               "stop_app_by_cmd" (JObj [("stop_cmd", JStr "kill")])
               "Failed to stop app by command" [])
    as (cause & He & Hkind); [reflexivity|].
  exists cause. split; [exact He|].
  destruct Hkind as [H | (argsJSON & _ & [H | (response & H & _)])].
  - vm_compute in H. discriminate H.
  - vm_compute in H. injection H as <-. reflexivity.
  - vm_compute in H. discriminate H.
Defined.

(** A transport that fails under [stopAppByCmd]. *)
Lemma underlying_error_is_reported_witness :
  exists res sent' message,
    run rt (session_answering (inl (Error "socket hang up"))) (StopAppByCmd "kill") []
    = (inr res, sent')
    /\ Result.errorMessage res = Some message
    /\ contains "Error: socket hang up" message
    /\ sent' <> [].
Proof.
  edestruct (underlying_error_is_reported rt
               (session_answering (inl (Error "socket hang up")))
               (StopAppByCmd "kill") [] (Error "socket hang up"))
    as (res & sent' & message & Hrun & _ & Hmsg & _ & Hcause & _ & Hsent).
  { right. eexists. split; [reflexivity|]. left. reflexivity. }
  exists res, sent', message. do 3 (split; [assumption|]).
  intros Hnil. apply Hsent in Hnil as [e He]. discriminate He.
Defined.

(** The text of two processes under [listVisibleApps]. *)
Lemma list_operation_parses_joined_text_witness :
  exists sent',
    run rt (session_answering (inr (response_with two_processes))) ListVisibleApps []
    = (inr (Result.mk "R1" true (Some (JArr processes)) None), sent').
Proof.
  eexists.
  eapply (list_operation_parses_joined_text rt
           (session_answering (inr (response_with two_processes)))
           ListVisibleApps [] _ (response_with two_processes)
           [text_item processes_text] processes_text []);
    reflexivity.
Defined.

(** A payload without content under [getInstalledApps]. *)
Lemma list_operation_without_text_witness :
  exists sent',
    run rt (session_answering (inr (response_with (JObj [("isError", JBool false)]))))
      (GetInstalledApps None None None) []
    = (inr (Result.mk "R1" true (Some (JArr [])) None), sent').
Proof.
  eexists.
  eapply (list_operation_without_text rt
           (session_answering (inr (response_with (JObj [("isError", JBool false)]))))
           (GetInstalledApps None None None) [] _
           (response_with (JObj [("isError", JBool false)])));
    try reflexivity.
  intros items H. discriminate H.
Defined.

(** A payload that is a string. *)
Lemma non_object_payload_is_accepted_witness :
  exists sent',
    run rt (session_answering (inr (response_with (JStr "ok")))) (StopAppByPID 7) []
    = (inr (Result.mk "R1" true None None), sent').
Proof.
  eexists.
  eapply (non_object_payload_is_accepted rt
           (session_answering (inr (response_with (JStr "ok"))))
           (StopAppByPID 7) [] _ (response_with (JStr "ok")));
    reflexivity.
Defined.

(** Two answers with the same payload and request id, one with status
    code 200 and one with status code 500. *)
Lemma only_payload_and_request_id_matter_witness :
  fst (run rt (session_answering (inr (response_with two_processes)))
         ListVisibleApps [])
  = fst (run rt
           (session_answering
              (inr (JObj [("statusCode", JNum 500);
                          ("body", JObj [("requestId", JStr "R1");
                                         ("data", two_processes)])])))
           ListVisibleApps []).
Proof.
  eapply (only_payload_and_request_id_matter rt
            (session_answering (inr (response_with two_processes)))
            ListVisibleApps []);
    reflexivity.
Defined.

(** A result that is returned. *)
Lemma returned_result_is_read_off_payload_witness :
  exists r sent',
    callMcpTool rt (session_answering (inr (response_with two_processes)))
      "list_visible_apps" (JObj []) "Failed to list visible apps" []
    = (inr r, sent')
    /\ CallMcpToolResult.errorMsg r = None
    /\ CallMcpToolResult.textContent r = Some processes_text.
Proof.
  do 2 eexists. split; [reflexivity|].
  edestruct (returned_result_is_read_off_payload rt
               (session_answering (inr (response_with two_processes)))
               "list_visible_apps" (JObj []) "Failed to list visible apps" [])
    as (argsJSON & response & _ & _ & _ & _ & _ & _ & Hmsg & _ & _ & _ & Htext);
    [reflexivity|].
  split; [exact Hmsg|exact Htext].
Defined.

(** A tool error without text: the default error message comes twice. *)
Lemma tool_error_is_reported_witness :
  exists sent',
    run rt (session_answering (inr (response_with error_with_empty_text)))
      (StopAppByPID 7) []
    = (inr (Result.mk "" false None
              (Some ("Failed to stop app by pid: APIError: "
                     +:+ "Failed to call stop_app_by_pid: Error: "
                     +:+ "Failed to stop app by pid"))),
       sent').
Proof.
  eexists.
  eapply (tool_error_is_reported rt
           (session_answering (inr (response_with error_with_empty_text)))
           (StopAppByPID 7) [] _ (response_with error_with_empty_text));
    reflexivity.
Defined.

End Cases.
